(** * GE induction cooktop controller: the GEA frame encoder

    A shallow embedding of [ge_induction_cooktop_controller.ino]: the CRC-16
    routine with its table, the escape classifier, the two frame-building
    commands ([initSingleGenerator], [setPowerLevels]) and the start-up
    sequencer ([initCooktop]), followed by the properties of the
    specification that concern them.

    Conventions.
    - A [uint8_t], a [char] and a [uint16_t] are a [Z] holding the unsigned
      value of the bit pattern; every store into a narrower object is written
      out ([to_u8], [to_u16]).
    - A buffer is a [list Z]; [buf !! i] reads it and [<[i:=v]> buf] stores
      into it.  All the stores of the source are inside the buffer.
    - The serial ports and [delay] are effects on a [world]: the list of the
      events so far, oldest first. *)

From Stdlib Require Import ZArith List String Lia Bool.
From stdpp Require Import base list.
Import ListNotations.
Local Open Scope Z_scope.

(** ** Machine integers *)

Definition to_u8 (z : Z) : Z := z mod 256.
Definition to_u16 (z : Z) : Z := z mod 65536.

(** ** Constants of the sketch *)

Definition LOCAL_ADDR : Z := 0x87.
Definition GEN1_ADDR : Z := 0x88.
Definition GEN2_ADDR : Z := 0x89.
Definition GEN3_ADDR : Z := 0x8a.

Definition minPowerSteps : Z := 0.
Definition maxPowerSteps : Z := 19.

(** [GeaHeaderBytes] *)
Definition GEA_ESC : Z := 0xe0.
Definition GEA_ACK : Z := 0xe1.
Definition GEA_SOF : Z := 0xe2.
Definition GEA_EOF : Z := 0xe3.

(** [GeaCommandList] *)
Definition CMD_GET_SW_VERSION : Z := 0x01.
Definition CMD_SET_BOARD_CONFIG : Z := 0x26.
Definition CMD_SET_PWR_LEVELS : Z := 0x28.
Definition CMD_GET_CURRENTS : Z := 0x29.
Definition CMD_GET_STATUS : Z := 0x9e.

(** [CoilProfileId] *)
Definition COIL_TYPE_NONE : Z := 0x00.
Definition COIL_TYPE_1800_WATT : Z := 0x01.
Definition COIL_TYPE_2500_WATT : Z := 0x02.
Definition COIL_TYPE_3200_WATT : Z := 0x03.
Definition COIL_TYPE_3700_WATT : Z := 0x04.

(** [PersonalityId] *)
Definition PERSONALITY_FOUR_COILS : Z := 0.
Definition PERSONALITY_FIVE_COILS : Z := 1.

(** ** Message structures

    Both message structures are [packed]: their bytes in memory are the
    fields in declaration order, without padding. *)

(** The header has a field called [length]; the record lives in a module so
    that the name stays free for lists. *)
Module Header.
Record GeaMessageHeader_t := mk {
  sof : Z;
  destination : Z;
  length : Z;
  source : Z
}.
End Header.
Abbreviation GeaMessageHeader_t := Header.GeaMessageHeader_t.

Record BoardConfigMsg_t := mkBoardConfigMsg {
  bc_header : GeaMessageHeader_t;
  bc_command : Z;
  coil1_profile : Z;
  coil2_profile : Z
}.

Record SetPowerLevelsMsg_t := mkSetPowerLevelsMsg {
  pl_header : GeaMessageHeader_t;
  pl_command : Z;
  coil1Power : Z;
  coil2Power : Z
}.

Definition header_bytes (h : GeaMessageHeader_t) : list Z :=
  [Header.sof h; Header.destination h; Header.length h; Header.source h].

Definition BoardConfigMsg_bytes (m : BoardConfigMsg_t) : list Z :=
  header_bytes (bc_header m) ++ [bc_command m; coil1_profile m; coil2_profile m].

Definition SetPowerLevelsMsg_bytes (m : SetPowerLevelsMsg_t) : list Z :=
  header_bytes (pl_header m) ++ [pl_command m; coil1Power m; coil2Power m].

(** [sizeof] of the two packed structures. *)
Definition sizeof_BoardConfigMsg_t : nat := 7.
Definition sizeof_SetPowerLevelsMsg_t : nat := 7.

(** ** The CRC table *)

Definition crc16Table : list Z := [
  0x0000; 0x1021; 0x2042; 0x3063; 0x4084; 0x50A5; 0x60C6; 0x70E7;
  0x8108; 0x9129; 0xA14A; 0xB16B; 0xC18C; 0xD1AD; 0xE1CE; 0xF1EF;
  0x1231; 0x0210; 0x3273; 0x2252; 0x52B5; 0x4294; 0x72F7; 0x62D6;
  0x9339; 0x8318; 0xB37B; 0xA35A; 0xD3BD; 0xC39C; 0xF3FF; 0xE3DE;
  0x2462; 0x3443; 0x0420; 0x1401; 0x64E6; 0x74C7; 0x44A4; 0x5485;
  0xA56A; 0xB54B; 0x8528; 0x9509; 0xE5EE; 0xF5CF; 0xC5AC; 0xD58D;
  0x3653; 0x2672; 0x1611; 0x0630; 0x76D7; 0x66F6; 0x5695; 0x46B4;
  0xB75B; 0xA77A; 0x9719; 0x8738; 0xF7DF; 0xE7FE; 0xD79D; 0xC7BC;
  0x48C4; 0x58E5; 0x6886; 0x78A7; 0x0840; 0x1861; 0x2802; 0x3823;
  0xC9CC; 0xD9ED; 0xE98E; 0xF9AF; 0x8948; 0x9969; 0xA90A; 0xB92B;
  0x5AF5; 0x4AD4; 0x7AB7; 0x6A96; 0x1A71; 0x0A50; 0x3A33; 0x2A12;
  0xDBFD; 0xCBDC; 0xFBBF; 0xEB9E; 0x9B79; 0x8B58; 0xBB3B; 0xAB1A;
  0x6CA6; 0x7C87; 0x4CE4; 0x5CC5; 0x2C22; 0x3C03; 0x0C60; 0x1C41;
  0xEDAE; 0xFD8F; 0xCDEC; 0xDDCD; 0xAD2A; 0xBD0B; 0x8D68; 0x9D49;
  0x7E97; 0x6EB6; 0x5ED5; 0x4EF4; 0x3E13; 0x2E32; 0x1E51; 0x0E70;
  0xFF9F; 0xEFBE; 0xDFDD; 0xCFFC; 0xBF1B; 0xAF3A; 0x9F59; 0x8F78;
  0x9188; 0x81A9; 0xB1CA; 0xA1EB; 0xD10C; 0xC12D; 0xF14E; 0xE16F;
  0x1080; 0x00A1; 0x30C2; 0x20E3; 0x5004; 0x4025; 0x7046; 0x6067;
  0x83B9; 0x9398; 0xA3FB; 0xB3DA; 0xC33D; 0xD31C; 0xE37F; 0xF35E;
  0x02B1; 0x1290; 0x22F3; 0x32D2; 0x4235; 0x5214; 0x6277; 0x7256;
  0xB5EA; 0xA5CB; 0x95A8; 0x8589; 0xF56E; 0xE54F; 0xD52C; 0xC50D;
  0x34E2; 0x24C3; 0x14A0; 0x0481; 0x7466; 0x6447; 0x5424; 0x4405;
  0xA7DB; 0xB7FA; 0x8799; 0x97B8; 0xE75F; 0xF77E; 0xC71D; 0xD73C;
  0x26D3; 0x36F2; 0x0691; 0x16B0; 0x6657; 0x7676; 0x4615; 0x5634;
  0xD94C; 0xC96D; 0xF90E; 0xE92F; 0x99C8; 0x89E9; 0xB98A; 0xA9AB;
  0x5844; 0x4865; 0x7806; 0x6827; 0x18C0; 0x08E1; 0x3882; 0x28A3;
  0xCB7D; 0xDB5C; 0xEB3F; 0xFB1E; 0x8BF9; 0x9BD8; 0xABBB; 0xBB9A;
  0x4A75; 0x5A54; 0x6A37; 0x7A16; 0x0AF1; 0x1AD0; 0x2AB3; 0x3A92;
  0xFD2E; 0xED0F; 0xDD6C; 0xCD4D; 0xBDAA; 0xAD8B; 0x9DE8; 0x8DC9;
  0x7C26; 0x6C07; 0x5C64; 0x4C45; 0x3CA2; 0x2C83; 0x1CE0; 0x0CC1;
  0xEF1F; 0xFF3E; 0xCF5D; 0xDF7C; 0xAF9B; 0xBFBA; 0x8FD9; 0x9FF8;
  0x6E17; 0x7E36; 0x4E55; 0x5E74; 0x2E93; 0x3EB2; 0x0ED1; 0x1EF0
].

(** [crc16Table[i]] for an index that the caller has masked to eight bits. *)
Definition crc16Table_at (i : Z) : Z := nth (Z.to_nat i) crc16Table 0.

(** ** [CalculateCrc16] *)

(** One iteration of the loop body:
    [crc16 = (crc16 >> 8) ^ crc16Table[(crc16 ^ (uint16_t)*ptr++) & 0x00ff]],
    the result stored in the [uint16_t] variable.  [c] is the byte read
    through the [char] pointer; its conversion to [uint16_t] is [to_u16]
    (see [crc16_index_sign_extension] for a [char] that is signed). *)
Definition crc16_iter (crc16 c : Z) : Z :=
  to_u16 (Z.lxor (Z.shiftr crc16 8)
                 (crc16Table_at (Z.land (Z.lxor crc16 (to_u16 c)) 0x00ff))).

(** The [for] loop: [n] iterations remain, [ptr] is the memory from the
    current position on.  The source never asks for more bytes than the
    buffer holds; the model stops at the end of the list. *)
Fixpoint crc16_loop (n : nat) (ptr : list Z) (crc16 : Z) : Z :=
  match n with
  | O => crc16
  | S n' =>
      match ptr with
      | [] => crc16
      | c :: ptr' => crc16_loop n' ptr' (crc16_iter crc16 c)
      end
  end.

(** [dataToCheck] is [None] for the null pointer. *)
Definition CalculateCrc16 (dataToCheck : option (list Z)) (sizeOfData : nat) : Z :=
  let crc16 := 0xe300 in
  match dataToCheck with
  | Some ptr => crc16_loop sizeOfData ptr crc16
  | None => crc16
  end.

(** ** [withinRange] and [isEscaped] *)

Definition withinRange (value minimum maximum : Z) : bool :=
  (minimum <=? value) && (value <=? maximum).

Definition isEscaped (value : Z) : bool :=
  if value =? GEA_ESC then true
  else if value =? GEA_ACK then true
  else if value =? GEA_SOF then true
  else if value =? GEA_EOF then true
  else false.

(** ** Effects: the two serial ports and the clock *)

Inductive event :=
| BusByte (c : Z)            (* [Serial2.print(char)]: one byte on the GEA bus *)
| ConsoleLine (s : string)   (* [Serial.println]: a line on the console *)
| Pause (ms : Z).            (* [delay] *)

Definition world := list event.

Definition M (A : Type) : Type := world -> A * world.

#[global] Instance M_ret : MRet M := fun A (a : A) w => (a, w).
#[global] Instance M_bind : MBind M :=
  fun A B (k : A -> M B) (m : M A) w => let (a, w') := m w in k a w'.

Definition Serial2_print (c : Z) : M unit := fun w => (tt, w ++ [BusByte c]).
Definition Serial_println (s : string) : M unit := fun w => (tt, w ++ [ConsoleLine s]).
Definition delay (ms : Z) : M unit := fun w => (tt, w ++ [Pause ms]).

(** [for (int i = i0; i < i0 + n; i++) Serial2.print(txBuffer[i]);] *)
Fixpoint Serial2_print_loop (txBuffer : list Z) (n i : nat) : M unit :=
  match n with
  | O => mret tt
  | S n' =>
      Serial2_print (default 0 (txBuffer !! i)) ;;
      Serial2_print_loop txBuffer n' (S i)
  end.

(** The bytes that went out on the GEA bus, oldest first. *)
Definition bus (w : world) : list Z :=
  omap (fun e => match e with BusByte c => Some c | _ => None end) w.

(** ** [memcpy] out of a message structure

    Both commands copy [txBufferSize] bytes out of a structure of seven
    bytes, so the copy runs past the structure into whatever follows it in
    memory.  [stray k] is the byte found [k] places after the end of the
    structure; nothing is assumed about it. *)
Definition mem_at (obj : list Z) (stray : nat -> Z) (i : nat) : Z :=
  match obj !! i with
  | Some b => b
  | None => to_u8 (stray (i - List.length obj)%nat)
  end.

Definition memcpy (obj : list Z) (stray : nat -> Z) (n : nat) : list Z :=
  map (mem_at obj stray) (seq 0 n).

(** ** [initSingleGenerator] *)

Definition initSingleGenerator (stray : nat -> Z) (address profile1 profile2 : Z)
  : M Z :=
  (* the three parameters are [uint8_t] *)
  let address := to_u8 address in
  let profile1 := to_u8 profile1 in
  let profile2 := to_u8 profile2 in
  let cmd := CMD_SET_BOARD_CONFIG in
  let msg :=
    {| bc_header := {| Header.sof := to_u8 GEA_SOF;
                       Header.destination := address;
                       Header.length := 0x0a;
                       Header.source := to_u8 LOCAL_ADDR |};
       bc_command := to_u8 cmd;
       coil1_profile := profile1;
       coil2_profile := profile2 |} in
  let txBufferSize := (sizeof_BoardConfigMsg_t + 4)%nat in
  let txBuffer := memcpy (BoardConfigMsg_bytes msg) stray txBufferSize in
  let crc16 := CalculateCrc16 (Some txBuffer) (txBufferSize - 4) in
  let txBuffer := <[(txBufferSize - 4)%nat := to_u8 (Z.land crc16 0xff)]> txBuffer in
  let txBuffer := <[(txBufferSize - 3)%nat := to_u8 (Z.shiftr crc16 8)]> txBuffer in
  let txBuffer := <[(txBufferSize - 2)%nat := to_u8 GEA_EOF]> txBuffer in
  let txBuffer := <[(txBufferSize - 1)%nat := to_u8 GEA_ACK]> txBuffer in
  Serial2_print_loop txBuffer txBufferSize 0 ;;
  mret 0.

(** ** [setPowerLevels] *)

Definition setPowerLevels (stray : nat -> Z)
    (address coil1Level coil2Level heartbeat : Z) : M Z :=
  (* the four parameters are [uint8_t] *)
  let address := to_u8 address in
  let coil1Level := to_u8 coil1Level in
  let coil2Level := to_u8 coil2Level in
  let heartbeat := to_u8 heartbeat in
  if negb (withinRange coil1Level minPowerSteps maxPowerSteps)
     && negb (withinRange coil2Level minPowerSteps maxPowerSteps)
  then
    Serial_println "Power level out of range!" ;;
    mret (-1)
  else
    let escapedBytes := if isEscaped heartbeat then 1%nat else 0%nat in
    let cmd := CMD_SET_PWR_LEVELS in
    let msg :=
      {| pl_header := {| Header.sof := to_u8 GEA_SOF;
                         Header.destination := address;
                         Header.length := 0x0b;
                         Header.source := to_u8 LOCAL_ADDR |};
         pl_command := to_u8 cmd;
         coil1Power := coil1Level;
         coil2Power := coil2Level |} in
    let txBufferSize := (sizeof_SetPowerLevelsMsg_t + 5 + escapedBytes)%nat in
    let txBuffer := memcpy (SetPowerLevelsMsg_bytes msg) stray txBufferSize in
    let txBuffer :=
      if (0 <? escapedBytes)%nat
      then <[(txBufferSize - 6)%nat := to_u8 GEA_ESC]> txBuffer
      else txBuffer in
    let txBuffer := <[(txBufferSize - 5)%nat := heartbeat]> txBuffer in
    let crc16 :=
      CalculateCrc16 (Some txBuffer) (txBufferSize + escapedBytes - 4) in
    let txBuffer := <[(txBufferSize - 4)%nat := to_u8 (Z.land crc16 0xff)]> txBuffer in
    let txBuffer := <[(txBufferSize - 3)%nat := to_u8 (Z.shiftr crc16 8)]> txBuffer in
    let txBuffer := <[(txBufferSize - 2)%nat := to_u8 GEA_EOF]> txBuffer in
    let txBuffer := <[(txBufferSize - 1)%nat := to_u8 GEA_ACK]> txBuffer in
    Serial2_print_loop txBuffer txBufferSize 0 ;;
    mret 0.

(** ** [initCooktop]

    [strays n] is the memory that the [n]-th command of the sequence finds
    behind its message structure. *)
Definition initCooktop (strays : nat -> nat -> Z) (personality : Z) : M Z :=
  let personalityName := personality in
  (if personalityName =? PERSONALITY_FOUR_COILS then
     initSingleGenerator (strays 0%nat) GEN1_ADDR COIL_TYPE_2500_WATT COIL_TYPE_2500_WATT ;;
     delay 100 ;;
     initSingleGenerator (strays 1%nat) GEN2_ADDR COIL_TYPE_3700_WATT COIL_TYPE_1800_WATT ;;
     delay 100 ;;
     setPowerLevels (strays 2%nat) GEN1_ADDR 0 0 0 ;;
     delay 100 ;;
     setPowerLevels (strays 3%nat) GEN2_ADDR 0 0 0 ;;
     delay 100
   else if personalityName =? PERSONALITY_FIVE_COILS then
     initSingleGenerator (strays 0%nat) GEN1_ADDR COIL_TYPE_2500_WATT COIL_TYPE_2500_WATT ;;
     delay 100 ;;
     initSingleGenerator (strays 1%nat) GEN2_ADDR COIL_TYPE_3700_WATT COIL_TYPE_NONE ;;
     delay 100 ;;
     initSingleGenerator (strays 2%nat) GEN3_ADDR COIL_TYPE_1800_WATT COIL_TYPE_3200_WATT ;;
     delay 100 ;;
     setPowerLevels (strays 3%nat) GEN1_ADDR 0 0 0 ;;
     delay 100 ;;
     setPowerLevels (strays 4%nat) GEN2_ADDR 0 0 0 ;;
     delay 100 ;;
     setPowerLevels (strays 5%nat) GEN3_ADDR 0 0 0 ;;
     delay 100
   else
     mret tt) ;;
  mret 0.

(** ** Views of a run, used in the statements *)

(** What a command puts on the bus when it starts in the empty world. *)
Definition sent {A : Type} (m : M A) : list Z := bus (snd (m [])).

(** The maximal runs of bus bytes that no pause and no console line
    interrupts, oldest first; [cur] is the current run, newest byte first. *)
Fixpoint bursts_from (cur : list Z) (w : world) : list (list Z) :=
  let close := match cur with [] => [] | _ => [rev cur] end in
  match w with
  | [] => close
  | BusByte c :: w' => bursts_from (c :: cur) w'
  | _ :: w' => close ++ bursts_from [] w'
  end.

Definition bursts (w : world) : list (list Z) := bursts_from [] w.

(** The logical bytes of a board-configuration message: the seven bytes of
    [BoardConfigMsg_t] as [initSingleGenerator] fills it. *)
Definition BoardConfig_logical (address profile1 profile2 : Z) : list Z :=
  BoardConfigMsg_bytes
    {| bc_header := {| Header.sof := GEA_SOF;
                       Header.destination := to_u8 address;
                       Header.length := 0x0a;
                       Header.source := LOCAL_ADDR |};
       bc_command := CMD_SET_BOARD_CONFIG;
       coil1_profile := to_u8 profile1;
       coil2_profile := to_u8 profile2 |}.

(** The logical bytes of a power-level message: the seven bytes of
    [SetPowerLevelsMsg_t] as [setPowerLevels] fills it, then the heartbeat. *)
Definition SetPowerLevels_logical (address coil1Level coil2Level heartbeat : Z)
  : list Z :=
  SetPowerLevelsMsg_bytes
    {| pl_header := {| Header.sof := GEA_SOF;
                       Header.destination := to_u8 address;
                       Header.length := 0x0b;
                       Header.source := LOCAL_ADDR |};
       pl_command := CMD_SET_PWR_LEVELS;
       coil1Power := to_u8 coil1Level;
       coil2Power := to_u8 coil2Level |}
  ++ [to_u8 heartbeat].

(** The checksum bytes and the two markers that close a frame. *)
Definition trailer (crc16 : Z) : list Z :=
  [Z.land crc16 0xff; Z.shiftr crc16 8; GEA_EOF; GEA_ACK].

(** A command [appends] when all it does to the world is to add events at
    its end, and neither these nor its result depend on what was there. *)
Definition appends {A : Type} (m : M A) : Prop :=
  forall w, m w = (fst (m []), w ++ snd (m [])).

(** ** The checksum in the words of the specification

    Section 4.1: seed [0xE300], then for each byte in order
    [crc = (crc >> 8) ^ table[(crc ^ byte) & 0xFF]]. *)
Definition checksum_step (crc byte : Z) : Z :=
  Z.lxor (Z.shiftr crc 8) (crc16Table_at (Z.land (Z.lxor crc byte) 0xFF)).

Definition checksum (buffer : list Z) : Z := fold_left checksum_step buffer 0xE300.

(** A reference implementation that has no table: the entry for an index is
    the remainder of the index, placed in the high byte, divided bit by bit
    by the polynomial [0x1021]. *)
Definition crc16_polynomial : Z := 0x1021.

Fixpoint poly_divide (k : nat) (r : Z) : Z :=
  match k with
  | O => r
  | S k' =>
      poly_divide k'
        (if Z.testbit r 15
         then Z.lxor (Z.shiftl r 1 mod 65536) crc16_polynomial
         else Z.shiftl r 1 mod 65536)
  end.

Definition poly_entry (i : Z) : Z := poly_divide 8 (Z.shiftl i 8).

Definition crc16_reference (buffer : list Z) : Z :=
  fold_left
    (fun crc byte =>
       Z.lxor (Z.shiftr crc 8) (poly_entry (Z.land (Z.lxor crc byte) 0xFF)))
    buffer 0xE300.

(** ** The reference decoder of the round-trip property

    The sketch has no receive path.  This decoder follows the words of the
    specification (section 8): strip the trailer, remove the escape markers,
    verify the checksum over the de-escaped header and payload, give back the
    header fields, the command and the payload. *)
Fixpoint unescape (wire : list Z) : option (list Z) :=
  match wire with
  | [] => Some []
  | c :: rest =>
      if c =? GEA_ESC then
        match rest with
        | [] => None
        | d :: rest' => cons d <$> unescape rest'
        end
      else cons c <$> unescape rest
  end.

Record decoded := mkDecoded {
  d_header : GeaMessageHeader_t;
  d_command : Z;
  d_payload : list Z
}.

Definition reference_decode (wire : list Z) : option decoded :=
  match rev wire with
  | ack :: eof :: rbody =>
      if (ack =? GEA_ACK) && (eof =? GEA_EOF) then
        match unescape (rev rbody) with
        | Some plain =>
            match rev plain with
            | hi :: lo :: rdata =>
                let data := rev rdata in
                if checksum data =? lo + 256 * hi then
                  match data with
                  | s :: dst :: len :: src :: cmd :: payload =>
                      Some {| d_header := Header.mk s dst len src;
                              d_command := cmd;
                              d_payload := payload |}
                  | _ => None
                  end
                else None
            | _ => None
            end
        | None => None
        end
      else None
  | _ => None
  end.

(** ** The sketch: pins, globals, [setup] and [loop]

    The sketch layer has effects of its own: console output without a line
    end, pin configuration, pin writes, and the global [numberOfCoils].  Its
    inputs are not in the source's hands: what [digitalRead] and
    [analogRead] return is given from outside, and so is Arduino's [map],
    which the sketch calls but does not define. *)

Definition heartbeatLed : Z := 2.
Definition pot1Pin : Z := 25.
Definition pot2Pin : Z := 26.
Definition pot3Pin : Z := 34.
Definition pot4Pin : Z := 35.
Definition pot5Pin : Z := 32.
Definition personalitySelPin : Z := 33.

Definition potPins : list Z := [pot1Pin; pot2Pin; pot3Pin; pot4Pin; pot5Pin].

Inductive pin_mode := INPUT | OUTPUT.

Inductive io_event :=
| Protocol (e : event)               (* an event of the protocol layer *)
| ConsoleText (s : string)           (* [Serial.print] of a string *)
| ConsoleInt (n : Z)                 (* [Serial.print] of an [int] *)
| SerialBegin (baud : Z)             (* [Serial.begin] *)
| Serial2Begin (baud : Z)            (* [Serial2.begin] *)
| PinMode (pin : Z) (mode : pin_mode)
| DigitalWrite (pin : Z) (level : Z).

(** The state of the sketch: its one global that changes, and what it has
    done so far, oldest first. *)
Record sketch := mkSketch {
  numberOfCoils : Z;
  io : list io_event
}.

Definition Sk (A : Type) : Type := sketch -> A * sketch.

#[global] Instance Sk_ret : MRet Sk := fun A (a : A) s => (a, s).
#[global] Instance Sk_bind : MBind Sk :=
  fun A B (k : A -> Sk B) (m : Sk A) s => let (a, s') := m s in k a s'.

Definition emit (e : io_event) : Sk unit :=
  fun s => (tt, mkSketch (numberOfCoils s) (io s ++ [e])).

(** A command of the protocol layer, run from the sketch: its events are
    added to those of the sketch. *)
Definition lift {A : Type} (m : M A) : Sk A :=
  fun s => (fst (m []), mkSketch (numberOfCoils s) (io s ++ map Protocol (snd (m [])))).

Definition set_numberOfCoils (n : Z) : Sk unit := fun s => (tt, mkSketch n (io s)).
Definition get_numberOfCoils : Sk Z := fun s => (numberOfCoils s, s).

(** The bytes that went out on the GEA bus, oldest first. *)
Definition sketch_bus (l : list io_event) : list Z :=
  bus (omap (fun e => match e with Protocol p => Some p | _ => None end) l).

(** [for (int i = i0; i < i0 + n; i++) pinMode(potPins[i], INPUT);] *)
Fixpoint pinMode_pots (n i : nat) : Sk unit :=
  match n with
  | O => mret tt
  | S n' => emit (PinMode (default 0 (potPins !! i)) INPUT) ;; pinMode_pots n' (S i)
  end.

(** [setup]; [personalitySel] is what [digitalRead(personalitySelPin)]
    returns, [strays] the memory behind the messages of [initCooktop]. *)
Definition setup (personalitySel : Z) (strays : nat -> nat -> Z) : Sk unit :=
  emit (SerialBegin 115200) ;;
  emit (Serial2Begin 19200) ;;
  lift (Serial_println "Initializing potentiometers...") ;;
  pinMode_pots 5 0 ;;
  emit (PinMode personalitySelPin INPUT) ;;
  emit (PinMode heartbeatLed OUTPUT) ;;
  personality ← (if personalitySel =? 1
                 then set_numberOfCoils 5 ;; mret 1
                 else set_numberOfCoils 4 ;; mret 0) ;
  emit (ConsoleText "Initializing generator boards for a ") ;;
  (if personality =? 1
   then lift (Serial_println "36 inch cooktop...")
   else lift (Serial_println "30 inch cooktop...")) ;;
  lift (initCooktop strays personality) ;;
  lift (Serial_println "Starting main loop...").

(** What one pass of [loop] gets from outside: the pin levels read in each
    cycle, Arduino's [map] (its result as stored in the [int]), and the
    memory behind the message of each command of each cycle. *)
Record environment := mkEnvironment {
  digitalRead : nat -> Z -> Z;
  analogRead : nat -> Z -> Z;
  arduino_map : Z -> Z -> Z -> Z -> Z -> Z;
  stray_at : nat -> nat -> nat -> Z
}.

(** [map(analogRead(potPins[i]), 41, 4095, minPowerSteps, maxPowerSteps)] *)
Definition potValue (env : environment) (cycle i : nat) : Z :=
  arduino_map env (analogRead env cycle (default 0 (potPins !! i)))
    41 4095 minPowerSteps maxPowerSteps.

(** The inner [for] loop of [loop]: fill [potValues] and print it. *)
Fixpoint read_pots (env : environment) (cycle n i : nat) (potValues : list Z)
  : Sk (list Z) :=
  match n with
  | O => mret potValues
  | S n' =>
      let potValues := <[i := potValue env cycle i]> potValues in
      emit (ConsoleInt (default 0 (potValues !! i))) ;;
      emit (ConsoleText " ") ;;
      read_pots env cycle n' (S i) potValues
  end.

(** The body of the outer [for] loop of [loop].  [potValues] is not
    initialized in the source; all five elements are written before any is
    read. *)
Definition loop_cycle (env : environment) (heartbeat : Z) : Sk unit :=
  let cycle := Z.to_nat heartbeat in
  emit (DigitalWrite heartbeatLed
          (if digitalRead env cycle heartbeatLed =? 0 then 1 else 0)) ;;
  emit (ConsoleText "Power levels: ") ;;
  potValues ← read_pots env cycle 5 0 (replicate 5 0) ;
  let pot k := default 0 (potValues !! k) in
  lift (Serial_println "") ;;
  n ← get_numberOfCoils ;
  (if n =? 4 then
     lift (setPowerLevels (stray_at env cycle 0%nat) GEN1_ADDR
             (pot 0%nat) (pot 1%nat) heartbeat) ;;
     lift (setPowerLevels (stray_at env cycle 1%nat) GEN2_ADDR
             (pot 2%nat) (pot 3%nat) heartbeat) ;;
     mret tt
   else if n =? 5 then
     lift (setPowerLevels (stray_at env cycle 0%nat) GEN1_ADDR
             (pot 0%nat) (pot 1%nat) heartbeat) ;;
     lift (setPowerLevels (stray_at env cycle 1%nat) GEN2_ADDR
             (pot 4%nat) 0 heartbeat) ;;
     lift (setPowerLevels (stray_at env cycle 2%nat) GEN3_ADDR
             (pot 2%nat) (pot 3%nat) heartbeat) ;;
     mret tt
   else mret tt) ;;
  lift (delay 500).

(** [for (heartbeat = h; heartbeat < h + n; heartbeat++) ...] *)
Fixpoint loop_from (env : environment) (n : nat) (heartbeat : Z) : Sk unit :=
  match n with
  | O => mret tt
  | S n' => loop_cycle env heartbeat ;; loop_from env n' (heartbeat + 1)
  end.

Definition loop (env : environment) : Sk unit := loop_from env 256 0.

(** What one cycle puts on the bus, by the number of coils. *)
Definition cycle_frames (env : environment) (coils heartbeat : Z) : list (list Z) :=
  let cycle := Z.to_nat heartbeat in
  let pot := potValue env cycle in
  if coils =? 4 then
    [sent (setPowerLevels (stray_at env cycle 0%nat) GEN1_ADDR
             (pot 0%nat) (pot 1%nat) heartbeat);
     sent (setPowerLevels (stray_at env cycle 1%nat) GEN2_ADDR
             (pot 2%nat) (pot 3%nat) heartbeat)]
  else if coils =? 5 then
    [sent (setPowerLevels (stray_at env cycle 0%nat) GEN1_ADDR
             (pot 0%nat) (pot 1%nat) heartbeat);
     sent (setPowerLevels (stray_at env cycle 1%nat) GEN2_ADDR
             (pot 4%nat) 0 heartbeat);
     sent (setPowerLevels (stray_at env cycle 2%nat) GEN3_ADDR
             (pot 2%nat) (pot 3%nat) heartbeat)]
  else [].

(** * Properties *)

(** ** Machine integers *)

Lemma to_u8_range z : 0 <= to_u8 z < 256.
Proof. unfold to_u8. apply Z.mod_pos_bound. lia. Qed.

Lemma to_u8_id z : 0 <= z < 256 -> to_u8 z = z.
Proof. intros H. unfold to_u8. apply Z.mod_small. exact H. Qed.

Lemma to_u16_range z : 0 <= to_u16 z < 65536.
Proof. unfold to_u16. apply Z.mod_pos_bound. lia. Qed.

Lemma to_u16_id z : 0 <= z < 65536 -> to_u16 z = z.
Proof. intros H. unfold to_u16. apply Z.mod_small. exact H. Qed.

(** The low byte and the high byte of a 16-bit value fit a [char]. *)
Lemma low_byte_u8 crc : 0 <= crc -> to_u8 (Z.land crc 0xff) = Z.land crc 0xff.
Proof.
  intros H. apply to_u8_id.
  change 0xff with (Z.ones 8). rewrite Z.land_ones by lia.
  apply Z.mod_pos_bound. lia.
Qed.

Lemma high_byte_u8 crc : 0 <= crc < 65536 -> to_u8 (Z.shiftr crc 8) = Z.shiftr crc 8.
Proof.
  intros H. apply to_u8_id.
  rewrite Z.shiftr_div_pow2 by lia. change (2 ^ 8) with 256.
  split; [apply Z.div_pos; lia | apply Z.div_lt_upper_bound; lia].
Qed.

(** ** The checksum stays a 16-bit value *)

Lemma crc16_iter_range crc c : 0 <= crc16_iter crc c < 65536.
Proof. apply to_u16_range. Qed.

Lemma crc16_loop_range n : forall ptr crc,
  0 <= crc < 65536 -> 0 <= crc16_loop n ptr crc < 65536.
Proof.
  induction n as [|n IH]; intros ptr crc Hc; simpl; [exact Hc|].
  destruct ptr as [|c ptr]; [exact Hc|].
  apply IH, crc16_iter_range.
Qed.

Lemma CalculateCrc16_range data n : 0 <= CalculateCrc16 data n < 65536.
Proof.
  unfold CalculateCrc16. destruct data as [ptr|]; [|lia].
  apply crc16_loop_range. lia.
Qed.

(** The loop reads the first [n] bytes only. *)
Lemma crc16_loop_prefix n : forall ptr rest crc,
  List.length ptr = n -> crc16_loop n (ptr ++ rest) crc = crc16_loop n ptr crc.
Proof.
  induction n as [|n IH]; intros ptr rest crc Hlen; [reflexivity|].
  destruct ptr as [|c ptr]; [discriminate|].
  simpl. apply IH. simpl in Hlen. lia.
Qed.

(** ** The transmit loop *)

Lemma Serial2_print_loop_run (txBuffer : list Z) n : forall i w,
  (i + n <= List.length txBuffer)%nat ->
  Serial2_print_loop txBuffer n i w
  = (tt, w ++ map BusByte (take n (drop i txBuffer))).
Proof.
  induction n as [|n IH]; intros i w Hlen.
  - cbn. rewrite ?take_0. cbn. now rewrite app_nil_r.
  - destruct (lookup_lt_is_Some_2 txBuffer i) as [c Hc]; [lia|].
    cbn [Serial2_print_loop]. unfold mbind, M_bind, Serial2_print.
    rewrite Hc. cbn [default]. rewrite IH by lia.
    rewrite (drop_S _ _ _ Hc). cbn [take map].
    now rewrite <- app_assoc.
Qed.

Lemma bus_app w1 w2 : bus (w1 ++ w2) = bus w1 ++ bus w2.
Proof. unfold bus. apply omap_app. Qed.

Lemma bus_BusByte l : bus (map BusByte l) = l.
Proof. induction l as [|c l IH]; [reflexivity|]. cbn. unfold bus in IH. now rewrite IH. Qed.

Lemma CalculateCrc16_prefix n ptr rest :
  List.length ptr = n ->
  CalculateCrc16 (Some (ptr ++ rest)) n = CalculateCrc16 (Some ptr) n.
Proof. intros H. unfold CalculateCrc16. now apply crc16_loop_prefix. Qed.

(** ** What the two commands do, in closed form *)

(** Once the buffer is known up to the checksum: the two checksum bytes fit
    a [char], and the transmit loop sends the buffer from first to last. *)
Ltac transmit_buffer :=
  match goal with
  | |- context [CalculateCrc16 ?d ?n] =>
      let Hc := fresh "Hc" in
      pose proof (CalculateCrc16_range d n) as Hc;
      rewrite low_byte_u8, high_byte_u8 by lia;
      generalize dependent (CalculateCrc16 d n)
  end;
  intros ? _;
  unfold mbind, M_bind; rewrite Serial2_print_loop_run by reflexivity;
  reflexivity.


Lemma initSingleGenerator_run stray address profile1 profile2 w :
  initSingleGenerator stray address profile1 profile2 w
  = (0, w ++ map BusByte
           (let data := BoardConfig_logical address profile1 profile2 in
            data ++ trailer (CalculateCrc16 (Some data) 7))).
Proof.
  unfold initSingleGenerator. cbv zeta.
  change (sizeof_BoardConfigMsg_t + 4)%nat with 11%nat.
  change (memcpy _ stray 11)
    with (BoardConfig_logical address profile1 profile2
          ++ map (fun k => to_u8 (stray k)) (seq 0 4)).
  change (11 - 4)%nat with 7%nat.
  rewrite CalculateCrc16_prefix by reflexivity.
  transmit_buffer.
Qed.

Lemma setPowerLevels_reject stray address coil1Level coil2Level heartbeat w :
  19 < to_u8 coil1Level -> 19 < to_u8 coil2Level ->
  setPowerLevels stray address coil1Level coil2Level heartbeat w
  = (-1, w ++ [ConsoleLine "Power level out of range!"]).
Proof.
  intros H1 H2. unfold setPowerLevels. cbv zeta.
  unfold withinRange, minPowerSteps, maxPowerSteps.
  pose proof (to_u8_range coil1Level). pose proof (to_u8_range coil2Level).
  replace (to_u8 coil1Level <=? 19) with false by (symmetry; apply Z.leb_gt; lia).
  replace (to_u8 coil2Level <=? 19) with false by (symmetry; apply Z.leb_gt; lia).
  rewrite !andb_false_r. reflexivity.
Qed.

(** The checksum that [setPowerLevels] computes when the heartbeat is a
    control code covers ten bytes of the buffer. *)
Lemma setPowerLevels_run stray address coil1Level coil2Level heartbeat w :
  to_u8 coil1Level <= 19 \/ to_u8 coil2Level <= 19 ->
  setPowerLevels stray address coil1Level coil2Level heartbeat w
  = (0, w ++ map BusByte
           (let msg := SetPowerLevels_logical address coil1Level coil2Level heartbeat in
            if isEscaped (to_u8 heartbeat)
            then take 7 msg ++ [GEA_ESC; to_u8 heartbeat]
                 ++ trailer (CalculateCrc16
                      (Some (take 7 msg ++ [GEA_ESC; to_u8 heartbeat; to_u8 (stray 2%nat)])) 10)
            else msg ++ trailer (CalculateCrc16 (Some msg) 8))).
Proof.
  intros Hin. unfold setPowerLevels. cbv zeta.
  unfold withinRange, minPowerSteps, maxPowerSteps.
  pose proof (to_u8_range coil1Level). pose proof (to_u8_range coil2Level).
  replace (negb ((0 <=? to_u8 coil1Level) && (to_u8 coil1Level <=? 19))
           && negb ((0 <=? to_u8 coil2Level) && (to_u8 coil2Level <=? 19)))
    with false.
  2:{ symmetry. destruct Hin as [Hin|Hin].
      - replace (0 <=? to_u8 coil1Level) with true by (symmetry; apply Z.leb_le; lia).
        replace (to_u8 coil1Level <=? 19) with true by (symmetry; apply Z.leb_le; lia).
        reflexivity.
      - replace (0 <=? to_u8 coil2Level) with true by (symmetry; apply Z.leb_le; lia).
        replace (to_u8 coil2Level <=? 19) with true by (symmetry; apply Z.leb_le; lia).
        apply andb_false_r. }
  destruct (isEscaped (to_u8 heartbeat)).
  - change (sizeof_SetPowerLevelsMsg_t + 5 + 1)%nat with 13%nat.
    change (memcpy _ stray 13)
      with (take 7 (SetPowerLevels_logical address coil1Level coil2Level heartbeat)
            ++ map (fun k => to_u8 (stray k)) (seq 0 6)).
    cbn [Nat.ltb Nat.leb].
    change (<[(13 - 5)%nat := _]> _)
      with ((take 7 (SetPowerLevels_logical address coil1Level coil2Level heartbeat)
             ++ [GEA_ESC; to_u8 heartbeat; to_u8 (stray 2%nat)])
            ++ map (fun k => to_u8 (stray k)) (seq 3 3)).
    change (13 + 1 - 4)%nat with 10%nat.
    rewrite CalculateCrc16_prefix by reflexivity.
    transmit_buffer.
  - change (sizeof_SetPowerLevelsMsg_t + 5 + 0)%nat with 12%nat.
    change (memcpy _ stray 12)
      with (take 7 (SetPowerLevels_logical address coil1Level coil2Level heartbeat)
            ++ map (fun k => to_u8 (stray k)) (seq 0 5)).
    cbn [Nat.ltb Nat.leb].
    change (<[(12 - 5)%nat := _]> _)
      with (SetPowerLevels_logical address coil1Level coil2Level heartbeat
            ++ map (fun k => to_u8 (stray k)) (seq 1 4)).
    change (12 + 0 - 4)%nat with 8%nat.
    rewrite CalculateCrc16_prefix by reflexivity.
    transmit_buffer.
Qed.


(** ** The checksum: source loop, specification fold, reference *)

Lemma lxor_range16 a b :
  0 <= a < 65536 -> 0 <= b < 65536 -> 0 <= Z.lxor a b < 65536.
Proof.
  intros Ha Hb.
  assert (Hnn : 0 <= Z.lxor a b) by (apply Z.lxor_nonneg; lia).
  split; [exact Hnn|].
  destruct (Z.eq_dec (Z.lxor a b) 0) as [->|Hne]; [lia|].
  change 65536 with (2 ^ 16). apply Z.log2_lt_pow2; [lia|].
  assert (Hl : forall x, 0 <= x < 65536 -> Z.log2 x < 16).
  { intros x Hx. destruct (Z.eq_dec x 0) as [->|Hx0]; [reflexivity|].
    apply Z.log2_lt_pow2; [lia|]. change (2 ^ 16) with 65536. lia. }
  pose proof (Z.log2_lxor a b ltac:(lia) ltac:(lia)).
  pose proof (Hl a Ha). pose proof (Hl b Hb). lia.
Qed.

Lemma byte_cases (P : Z -> bool) :
  forallb P (map Z.of_nat (seq 0 256)) = true ->
  forall z, 0 <= z < 256 -> P z = true.
Proof.
  intros Hall z Hz. rewrite forallb_forall in Hall. apply Hall.
  apply in_map_iff. exists (Z.to_nat z). split; [lia|].
  apply in_seq. lia.
Qed.

Lemma crc16Table_at_range i : 0 <= crc16Table_at i < 65536.
Proof.
  unfold crc16Table_at.
  assert (Hall : forallb (fun x => (0 <=? x) && (x <? 65536)) crc16Table = true)
    by (vm_compute; reflexivity).
  rewrite forallb_forall in Hall.
  destruct (nth_in_or_default (Z.to_nat i) crc16Table 0) as [Hin | ->]; [|lia].
  apply Hall in Hin. lia.
Qed.

(** Only the low eight bits of the byte reach the table index, so the
    conversion of the [char] to [uint16_t] does not matter. *)
Lemma crc16_index_low_bits crc c :
  Z.land (Z.lxor crc (to_u16 c)) 0x00ff = Z.land (Z.lxor crc c) 0xFF.
Proof.
  apply Z.bits_inj'. intros n Hn.
  rewrite !Z.land_spec, !Z.lxor_spec. change 255 with (Z.ones 8).
  destruct (Z.ltb_spec n 8) as [Hlt|Hge].
  - unfold to_u16. change 65536 with (2 ^ 16).
    rewrite Z.mod_pow2_bits_low by lia. reflexivity.
  - rewrite Z.ones_spec_high by lia. now rewrite !andb_false_r.
Qed.

(** A [char] that is signed turns a byte [c >= 128] into [c + 0xFF00] when
    it is converted to [uint16_t]; the table index is the same. *)
Lemma crc16_index_sign_extension crc c :
  Z.land (Z.lxor crc (to_u16 (c + 0xFF00))) 0x00ff
  = Z.land (Z.lxor crc (to_u16 c)) 0x00ff.
Proof.
  rewrite !crc16_index_low_bits.
  apply Z.bits_inj'. intros n Hn.
  rewrite !Z.land_spec, !Z.lxor_spec. change 255 with (Z.ones 8).
  destruct (Z.ltb_spec n 8) as [Hlt|Hge].
  - rewrite <- (Z.mod_pow2_bits_low (c + 65280) 8 n) by lia.
    rewrite <- (Z.mod_pow2_bits_low c 8 n) by lia.
    replace ((c + 65280) mod 2 ^ 8) with (c mod 2 ^ 8); [reflexivity|].
    change (2 ^ 8) with 256. replace (c + 65280) with (c + 255 * 256) by lia.
    now rewrite Z.mod_add by lia.
  - rewrite Z.ones_spec_high by lia. now rewrite !andb_false_r.
Qed.

Lemma crc16_iter_checksum_step crc c :
  0 <= crc < 65536 -> crc16_iter crc c = checksum_step crc c.
Proof.
  intros Hc. unfold crc16_iter, checksum_step.
  rewrite crc16_index_low_bits. apply to_u16_id.
  apply lxor_range16; [|apply crc16Table_at_range].
  rewrite Z.shiftr_div_pow2 by lia. change (2 ^ 8) with 256.
  split; [apply Z.div_pos; lia | apply Z.div_lt_upper_bound; lia].
Qed.

Lemma crc16_loop_fold buffer : forall crc,
  0 <= crc < 65536 ->
  crc16_loop (List.length buffer) buffer crc = fold_left checksum_step buffer crc.
Proof.
  induction buffer as [|c buffer IH]; intros crc Hc; [reflexivity|].
  cbn [List.length crc16_loop fold_left].
  rewrite IH by apply crc16_iter_range.
  now rewrite crc16_iter_checksum_step.
Qed.

Lemma crc16Table_polynomial i :
  0 <= i < 256 -> crc16Table_at i = poly_entry i.
Proof.
  intros Hi. apply Z.eqb_eq.
  apply (byte_cases (fun i => crc16Table_at i =? poly_entry i)); [|exact Hi].
  vm_compute. reflexivity.
Qed.

Lemma low8_range x : 0 <= Z.land x 0xFF < 256.
Proof.
  change 0xFF with (Z.ones 8). rewrite Z.land_ones by lia.
  apply Z.mod_pos_bound. lia.
Qed.

Lemma CalculateCrc16_eq_checksum (buffer : list Z) :
  CalculateCrc16 (Some buffer) (List.length buffer) = checksum buffer.
Proof. unfold CalculateCrc16, checksum. apply crc16_loop_fold. lia. Qed.

Lemma checksum_range (buffer : list Z) : 0 <= checksum buffer < 65536.
Proof. rewrite <- CalculateCrc16_eq_checksum. apply CalculateCrc16_range. Qed.

Lemma checksum_eq_reference (buffer : list Z) :
  checksum buffer = crc16_reference buffer.
Proof.
  unfold checksum, crc16_reference. generalize 0xE300.
  induction buffer as [|c buffer IH]; intros crc; [reflexivity|].
  cbn [fold_left]. rewrite IH. unfold checksum_step.
  now rewrite crc16Table_polynomial by apply low8_range.
Qed.

(** C6.  [CalculateCrc16] is a function of its arguments alone (it does not
    touch the world).  For every buffer, whatever follows it in memory, it is
    the fold of [crc = (crc >> 8) ^ table[(crc ^ byte) & 0xFF]] over the
    bytes in order, from the seed [0xE300], with the table of 256 entries;
    on the empty buffer it is [0xE300]; and it agrees with the table-free
    reference that derives each entry from the polynomial. *)
Theorem CalculateCrc16_is_checksum (buffer rest : list Z) :
  CalculateCrc16 (Some (buffer ++ rest)) (List.length buffer)
  = fold_left
      (fun crc byte =>
         Z.lxor (Z.shiftr crc 8) (crc16Table_at (Z.land (Z.lxor crc byte) 0xFF)))
      buffer 0xE300
  /\ List.length crc16Table = 256%nat
  /\ CalculateCrc16 (Some rest) 0 = 0xE300
  /\ CalculateCrc16 (Some []) 0 = 0xE300
  /\ CalculateCrc16 (Some (buffer ++ rest)) (List.length buffer)
     = crc16_reference buffer.
Proof.
  rewrite CalculateCrc16_prefix by reflexivity.
  split; [apply CalculateCrc16_eq_checksum|].
  split; [reflexivity|]. split; [reflexivity|]. split; [reflexivity|].
  rewrite CalculateCrc16_eq_checksum. apply checksum_eq_reference.
Qed.

(** ** The escape classifier *)

Lemma isEscaped_spec b :
  isEscaped b = true <-> b = 0xe0 \/ b = 0xe1 \/ b = 0xe2 \/ b = 0xe3.
Proof.
  unfold isEscaped, GEA_ESC, GEA_ACK, GEA_SOF, GEA_EOF.
  destruct (Z.eqb_spec b 0xe0); [tauto|].
  destruct (Z.eqb_spec b 0xe1); [tauto|].
  destruct (Z.eqb_spec b 0xe2); [tauto|].
  destruct (Z.eqb_spec b 0xe3); [tauto|].
  split; [discriminate | tauto].
Qed.

(** ** Commands do not look at the world they run in *)

Lemma setPowerLevels_cases (coil1Level coil2Level : Z) :
  (19 < to_u8 coil1Level /\ 19 < to_u8 coil2Level)
  \/ (to_u8 coil1Level <= 19 \/ to_u8 coil2Level <= 19).
Proof. lia. Qed.

Lemma setPowerLevels_world stray address coil1Level coil2Level heartbeat w :
  setPowerLevels stray address coil1Level coil2Level heartbeat w
  = (fst (setPowerLevels stray address coil1Level coil2Level heartbeat []),
     w ++ snd (setPowerLevels stray address coil1Level coil2Level heartbeat [])).
Proof.
  destruct (setPowerLevels_cases coil1Level coil2Level)
    as [[H1 H2]|Hin].
  - now rewrite !setPowerLevels_reject by assumption.
  - now rewrite !setPowerLevels_run by assumption.
Qed.

Lemma sent_initSingleGenerator stray address profile1 profile2 :
  sent (initSingleGenerator stray address profile1 profile2)
  = BoardConfig_logical address profile1 profile2
    ++ trailer (CalculateCrc16
                  (Some (BoardConfig_logical address profile1 profile2)) 7).
Proof.
  unfold sent. rewrite initSingleGenerator_run. cbn [snd app].
  apply bus_BusByte.
Qed.

Lemma sent_setPowerLevels_reject stray address coil1Level coil2Level heartbeat :
  19 < to_u8 coil1Level -> 19 < to_u8 coil2Level ->
  sent (setPowerLevels stray address coil1Level coil2Level heartbeat) = [].
Proof.
  intros H1 H2. unfold sent. now rewrite setPowerLevels_reject by assumption.
Qed.

Lemma sent_setPowerLevels_run stray address coil1Level coil2Level heartbeat :
  to_u8 coil1Level <= 19 \/ to_u8 coil2Level <= 19 ->
  sent (setPowerLevels stray address coil1Level coil2Level heartbeat)
  = let msg := SetPowerLevels_logical address coil1Level coil2Level heartbeat in
    if isEscaped (to_u8 heartbeat)
    then take 7 msg ++ [GEA_ESC; to_u8 heartbeat]
         ++ trailer (CalculateCrc16
              (Some (take 7 msg ++ [GEA_ESC; to_u8 heartbeat; to_u8 (stray 2%nat)])) 10)
    else msg ++ trailer (CalculateCrc16 (Some msg) 8).
Proof.
  intros Hin. unfold sent. rewrite setPowerLevels_run by assumption.
  cbn [snd app]. apply bus_BusByte.
Qed.

(** ** C10: board configuration cannot fail *)

(** C10.  For every address and every pair of profile bytes, whatever lies
    in memory behind the message and whatever happened before,
    [initSingleGenerator] returns 0 and adds exactly eleven bytes to the bus:
    four header bytes, the command byte, the two profile bytes, the two
    checksum bytes, the end-of-frame marker and the acknowledgment marker. *)
Theorem initSingleGenerator_never_fails stray address profile1 profile2 w :
  let crc16 :=
    CalculateCrc16 (Some (BoardConfig_logical address profile1 profile2)) 7 in
  initSingleGenerator stray address profile1 profile2 w
  = (0, w ++ map BusByte
           ([GEA_SOF; to_u8 address; 0x0a; LOCAL_ADDR]
            ++ [CMD_SET_BOARD_CONFIG]
            ++ [to_u8 profile1; to_u8 profile2]
            ++ [Z.land crc16 0xff; Z.shiftr crc16 8]
            ++ [GEA_EOF] ++ [GEA_ACK]))
  /\ List.length (bus (snd (initSingleGenerator stray address profile1 profile2 w)))
     = (List.length (bus w) + 11)%nat.
Proof.
  rewrite initSingleGenerator_run. cbv zeta.
  split; [reflexivity|].
  cbn [snd]. rewrite bus_app, bus_BusByte, length_app. reflexivity.
Qed.

(** ** C7: the byte order of a frame *)

(** C7.  Whatever a command puts on the bus is one frame in the order start
    of frame, destination, length, source, command, payload (an escape marker
    before the heartbeat when the heartbeat is a control code), low byte of
    the checksum variable, high byte of it, end of frame, acknowledgment; a
    rejected power-level command puts nothing on the bus. *)
Theorem frame_byte_order stray address x y heartbeat :
  (exists crc16,
     crc16 = CalculateCrc16 (Some (BoardConfig_logical address x y)) 7
     /\ sent (initSingleGenerator stray address x y)
        = [GEA_SOF; to_u8 address; 0x0a; LOCAL_ADDR; CMD_SET_BOARD_CONFIG]
          ++ [to_u8 x; to_u8 y]
          ++ [Z.land crc16 0xff; Z.shiftr crc16 8; GEA_EOF; GEA_ACK])
  /\ (sent (setPowerLevels stray address x y heartbeat) = []
      \/ exists crc16,
           crc16 = (if isEscaped (to_u8 heartbeat)
                    then CalculateCrc16
                           (Some ([GEA_SOF; to_u8 address; 0x0b; LOCAL_ADDR;
                                   CMD_SET_PWR_LEVELS; to_u8 x; to_u8 y;
                                   GEA_ESC; to_u8 heartbeat; to_u8 (stray 2%nat)])) 10
                    else CalculateCrc16
                           (Some (SetPowerLevels_logical address x y heartbeat)) 8)
           /\ sent (setPowerLevels stray address x y heartbeat)
              = [GEA_SOF; to_u8 address; 0x0b; LOCAL_ADDR; CMD_SET_PWR_LEVELS]
                ++ [to_u8 x; to_u8 y]
                ++ (if isEscaped (to_u8 heartbeat)
                    then [GEA_ESC; to_u8 heartbeat] else [to_u8 heartbeat])
                ++ [Z.land crc16 0xff; Z.shiftr crc16 8; GEA_EOF; GEA_ACK]).
Proof.
  split.
  - eexists. split; [reflexivity|]. now rewrite sent_initSingleGenerator.
  - destruct (setPowerLevels_cases x y) as [[H1 H2]|Hin].
    + left. now apply sent_setPowerLevels_reject.
    + right. eexists. split; [reflexivity|].
      rewrite sent_setPowerLevels_run by assumption. cbv zeta.
      destruct (isEscaped (to_u8 heartbeat)); reflexivity.
Qed.

(** ** C4: the length field *)

(** C4, as amended.  The length field is [0x0A] in every board-configuration
    frame and [0x0B] in every power-level frame, and it counts the bytes from
    the start-of-frame marker to the end-of-frame marker inclusive: all the
    bytes sent but the acknowledgment marker and the escape marker, if one
    was inserted. *)
Theorem length_field_counts_through_eof stray address x y heartbeat :
  (let frame := sent (initSingleGenerator stray address x y) in
   frame !! 2%nat = Some 0x0a
   /\ 0x0a = Z.of_nat (List.length frame) - 1)
  /\ (let frame := sent (setPowerLevels stray address x y heartbeat) in
      frame = []
      \/ (frame !! 2%nat = Some 0x0b
          /\ 0x0b = Z.of_nat (List.length frame) - 1
                    - (if isEscaped (to_u8 heartbeat) then 1 else 0))).
Proof.
  split; cbv zeta.
  - now rewrite sent_initSingleGenerator.
  - destruct (setPowerLevels_cases x y) as [[H1 H2]|Hin].
    + left. now apply sent_setPowerLevels_reject.
    + right. rewrite sent_setPowerLevels_run by assumption. cbv zeta.
      destruct (isEscaped (to_u8 heartbeat)); now split.
Qed.

(** C4 as the specification states it fails: in the frame that configures
    board 1 the length field is 10, while header, command, payload and
    checksum are 9 bytes. *)
Lemma length_field_is_not_count_without_trailer :
  let frame := sent (initSingleGenerator (fun _ => 0) GEN1_ADDR
                       COIL_TYPE_2500_WATT COIL_TYPE_2500_WATT) in
  frame = [0xe2; 0x88; 0x0a; 0x87; 0x26; 0x02; 0x02; 0xa6; 0x36; 0xe3; 0xe1]
  /\ ~ (frame !! 2%nat = Some (Z.of_nat (List.length frame) - 2)).
Proof.
  cbv zeta. split; [vm_compute; reflexivity|].
  vm_compute. intros H. discriminate H.
Qed.

(** ** Commands only append to the world *)

Lemma appends_ret {A : Type} (a : A) : appends (mret a).
Proof. intros w. cbn. now rewrite app_nil_r. Qed.

Lemma appends_bind {A B : Type} (m : M A) (k : A -> M B) :
  appends m -> (forall a, appends (k a)) -> appends (m ≫= k).
Proof.
  intros Hm Hk w. unfold mbind, M_bind.
  rewrite (Hm w). destruct (m []) as [a t]. cbn [fst snd].
  rewrite (Hk a (w ++ t)), (Hk a t). cbn [fst snd].
  now rewrite app_assoc.
Qed.

Lemma appends_delay ms : appends (delay ms).
Proof. intros w. reflexivity. Qed.

Lemma appends_initSingleGenerator stray address profile1 profile2 :
  appends (initSingleGenerator stray address profile1 profile2).
Proof. intros w. now rewrite !initSingleGenerator_run. Qed.

Lemma appends_setPowerLevels stray address coil1Level coil2Level heartbeat :
  appends (setPowerLevels stray address coil1Level coil2Level heartbeat).
Proof. intros w. apply setPowerLevels_world. Qed.

Lemma appends_initCooktop strays personality :
  appends (initCooktop strays personality).
Proof.
  unfold initCooktop. cbv zeta.
  apply appends_bind; [|intros; apply appends_ret].
  repeat match goal with
         | |- appends (if ?c then _ else _) => destruct c
         | |- appends (_ ≫= _) => apply appends_bind; [|intros _]
         | |- appends (mret _) => apply appends_ret
         | |- appends (delay _) => apply appends_delay
         | |- appends (initSingleGenerator _ _ _ _) => apply appends_initSingleGenerator
         | |- appends (setPowerLevels _ _ _ _ _) => apply appends_setPowerLevels
         end.
Qed.

(** ** C3: power levels out of range *)

(** C3.  When both coil levels are outside [0,19], [setPowerLevels] returns
    -1 and the only thing it does is to print the console line: no byte goes
    to the bus.  A second call with such arguments again returns -1 and sends
    nothing, and the commands that follow behave as they would have without
    the rejected call. *)
Theorem setPowerLevels_out_of_range stray1 stray2 address coil1 coil2 heartbeat w :
  0 <= coil1 < 256 -> 0 <= coil2 < 256 ->
  ~ (0 <= coil1 <= 19) -> ~ (0 <= coil2 <= 19) ->
  let r1 := setPowerLevels stray1 address coil1 coil2 heartbeat w in
  let r2 := setPowerLevels stray2 address coil1 coil2 heartbeat (snd r1) in
  r1 = (-1, w ++ [ConsoleLine "Power level out of range!"])
  /\ bus (snd r1) = bus w
  /\ fst r2 = -1
  /\ bus (snd r2) = bus w
  /\ (forall stray a c1 c2 hb,
        fst (setPowerLevels stray a c1 c2 hb (snd r1))
        = fst (setPowerLevels stray a c1 c2 hb w)
        /\ bus (snd (setPowerLevels stray a c1 c2 hb (snd r1)))
           = bus (snd (setPowerLevels stray a c1 c2 hb w)))
  /\ (forall stray a p1 p2,
        fst (initSingleGenerator stray a p1 p2 (snd r1))
        = fst (initSingleGenerator stray a p1 p2 w)
        /\ bus (snd (initSingleGenerator stray a p1 p2 (snd r1)))
           = bus (snd (initSingleGenerator stray a p1 p2 w))).
Proof.
  intros Hb1 Hb2 Ho1 Ho2. cbv zeta.
  assert (H1 : 19 < to_u8 coil1) by (rewrite to_u8_id by lia; lia).
  assert (H2 : 19 < to_u8 coil2) by (rewrite to_u8_id by lia; lia).
  rewrite !(setPowerLevels_reject _ address coil1 coil2) by assumption.
  cbn [fst snd].
  assert (Hbus : bus (w ++ [ConsoleLine "Power level out of range!"]) = bus w).
  { rewrite bus_app. cbn. apply app_nil_r. }
  split; [reflexivity|]. split; [exact Hbus|]. split; [reflexivity|].
  split; [rewrite bus_app; cbn; rewrite app_nil_r; exact Hbus|].
  split.
  - intros stray a c1 c2 hb.
    rewrite (appends_setPowerLevels stray a c1 c2 hb (w ++ _)).
    rewrite (appends_setPowerLevels stray a c1 c2 hb w).
    cbn [fst snd]. split; [reflexivity|].
    rewrite (bus_app (w ++ _)), Hbus. now rewrite bus_app.
  - intros stray a p1 p2. rewrite !initSingleGenerator_run. cbn [fst snd].
    split; [reflexivity|].
    rewrite (bus_app (w ++ _)), Hbus. now rewrite bus_app.
Qed.

(** C3 at [setPowerLevels(0x88, 20, 0xE0, 5)], called twice. *)
Lemma setPowerLevels_out_of_range_witness :
  let r1 := setPowerLevels (fun _ => 0) GEN1_ADDR 20 0xe0 5 [] in
  let r2 := setPowerLevels (fun _ => 0) GEN1_ADDR 20 0xe0 5 (snd r1) in
  fst r1 = -1 /\ bus (snd r1) = [] /\ fst r2 = -1 /\ bus (snd r2) = [].
Proof.
  destruct (setPowerLevels_out_of_range (fun _ => 0) (fun _ => 0)
              GEN1_ADDR 20 0xe0 5 [])
    as (E1 & B1 & R2 & B2 & _); try lia.
  cbv zeta. rewrite E1 in *. cbn [fst snd] in *. auto.
Defined.

(** ** C5: accepted power levels and the heartbeat escape *)

(** C5.  When at least one coil level is in [0,19], [setPowerLevels] returns
    0 and transmits a frame whose length field is [0x0B], for every
    heartbeat; when the heartbeat is one of the four control codes the byte
    sent just before it is the escape marker, and the length field is still
    [0x0B]; otherwise the heartbeat follows the coil levels directly. *)
Theorem setPowerLevels_accepted stray address coil1 coil2 heartbeat w :
  0 <= coil1 < 256 -> 0 <= coil2 < 256 -> 0 <= heartbeat < 256 ->
  0 <= coil1 <= 19 \/ 0 <= coil2 <= 19 ->
  exists frame lo hi,
    setPowerLevels stray address coil1 coil2 heartbeat w
    = (0, w ++ map BusByte frame)
    /\ frame !! 2%nat = Some 0x0b
    /\ (heartbeat = 0xe0 \/ heartbeat = 0xe1 \/ heartbeat = 0xe2 \/ heartbeat = 0xe3 ->
        frame = [GEA_SOF; to_u8 address; 0x0b; LOCAL_ADDR; CMD_SET_PWR_LEVELS;
                 coil1; coil2; GEA_ESC; heartbeat; lo; hi; GEA_EOF; GEA_ACK])
    /\ (~ (heartbeat = 0xe0 \/ heartbeat = 0xe1 \/ heartbeat = 0xe2 \/ heartbeat = 0xe3) ->
        frame = [GEA_SOF; to_u8 address; 0x0b; LOCAL_ADDR; CMD_SET_PWR_LEVELS;
                 coil1; coil2; heartbeat; lo; hi; GEA_EOF; GEA_ACK]).
Proof.
  intros Hb1 Hb2 Hb3 Hin.
  rewrite setPowerLevels_run by (rewrite !to_u8_id by lia; lia).
  cbv zeta. unfold SetPowerLevels_logical.
  rewrite (to_u8_id coil1), (to_u8_id coil2), (to_u8_id heartbeat) by lia.
  pose proof (isEscaped_spec heartbeat) as Hesc.
  destruct (isEscaped heartbeat).
  - eexists _, _, _. split; [reflexivity|]. split; [reflexivity|].
    split; [intros _; reflexivity|]. intros Hn. exfalso. apply Hn, Hesc. reflexivity.
  - eexists _, _, _. split; [reflexivity|]. split; [reflexivity|].
    split; [|intros _; reflexivity]. intros Hc. apply Hesc in Hc. discriminate Hc.
Qed.

(** C5 at [setPowerLevels(0x88, 7, 200, 0xE1)]. *)
Lemma setPowerLevels_accepted_witness :
  exists lo hi,
    setPowerLevels (fun _ => 0) GEN1_ADDR 7 200 0xe1 []
    = (0, map BusByte [0xe2; 0x88; 0x0b; 0x87; 0x28; 7; 200; 0xe0; 0xe1;
                       lo; hi; 0xe3; 0xe1]).
Proof.
  destruct (setPowerLevels_accepted (fun _ => 0) GEN1_ADDR 7 200 0xe1 [])
    as (frame & lo & hi & Hrun & _ & Hesc & _); try lia.
  exists lo, hi. rewrite Hrun, Hesc by lia. reflexivity.
Defined.

(** ** C8: the initialization sequence *)

(** C8.  With the 4-coil personality [initCooktop] returns 0 and sends
    exactly four frames, each followed by a pause: configure board 1
    (2500 W, 2500 W), configure board 2 (3700 W, 1800 W), zero power to
    board 1, zero power to board 2.  With the 5-coil personality it sends
    exactly six: configure board 1 (2500 W, 2500 W), board 2 (3700 W, none),
    board 3 (1800 W, 3200 W), then zero power to boards 1, 2 and 3. *)
Theorem initCooktop_frame_sequence strays w :
  (exists trace,
     initCooktop strays PERSONALITY_FOUR_COILS w = (0, w ++ trace)
     /\ bursts trace
        = [sent (initSingleGenerator (strays 0%nat) GEN1_ADDR
                   COIL_TYPE_2500_WATT COIL_TYPE_2500_WATT);
           sent (initSingleGenerator (strays 1%nat) GEN2_ADDR
                   COIL_TYPE_3700_WATT COIL_TYPE_1800_WATT);
           sent (setPowerLevels (strays 2%nat) GEN1_ADDR 0 0 0);
           sent (setPowerLevels (strays 3%nat) GEN2_ADDR 0 0 0)]
     /\ bursts trace
        = [[0xe2; 0x88; 0x0a; 0x87; 0x26; 0x02; 0x02; 0xa6; 0x36; 0xe3; 0xe1];
           [0xe2; 0x89; 0x0a; 0x87; 0x26; 0x04; 0x01; 0x04; 0x8d; 0xe3; 0xe1];
           [0xe2; 0x88; 0x0b; 0x87; 0x28; 0x00; 0x00; 0x00; 0x3d; 0x64; 0xe3; 0xe1];
           [0xe2; 0x89; 0x0b; 0x87; 0x28; 0x00; 0x00; 0x00; 0x06; 0xf1; 0xe3; 0xe1]]
     /\ bus trace = concat (bursts trace)
     /\ List.length (bursts trace) = 4%nat)
  /\ (exists trace,
       initCooktop strays PERSONALITY_FIVE_COILS w = (0, w ++ trace)
       /\ bursts trace
          = [sent (initSingleGenerator (strays 0%nat) GEN1_ADDR
                     COIL_TYPE_2500_WATT COIL_TYPE_2500_WATT);
             sent (initSingleGenerator (strays 1%nat) GEN2_ADDR
                     COIL_TYPE_3700_WATT COIL_TYPE_NONE);
             sent (initSingleGenerator (strays 2%nat) GEN3_ADDR
                     COIL_TYPE_1800_WATT COIL_TYPE_3200_WATT);
             sent (setPowerLevels (strays 3%nat) GEN1_ADDR 0 0 0);
             sent (setPowerLevels (strays 4%nat) GEN2_ADDR 0 0 0);
             sent (setPowerLevels (strays 5%nat) GEN3_ADDR 0 0 0)]
       /\ bursts trace
          = [[0xe2; 0x88; 0x0a; 0x87; 0x26; 0x02; 0x02; 0xa6; 0x36; 0xe3; 0xe1];
             [0xe2; 0x89; 0x0a; 0x87; 0x26; 0x04; 0x00; 0x25; 0x9d; 0xe3; 0xe1];
             [0xe2; 0x8a; 0x0a; 0x87; 0x26; 0x01; 0x03; 0x14; 0x28; 0xe3; 0xe1];
             [0xe2; 0x88; 0x0b; 0x87; 0x28; 0x00; 0x00; 0x00; 0x3d; 0x64; 0xe3; 0xe1];
             [0xe2; 0x89; 0x0b; 0x87; 0x28; 0x00; 0x00; 0x00; 0x06; 0xf1; 0xe3; 0xe1];
             [0xe2; 0x8a; 0x0b; 0x87; 0x28; 0x00; 0x00; 0x00; 0x0f; 0x68; 0xe3; 0xe1]]
       /\ bus trace = concat (bursts trace)
       /\ List.length (bursts trace) = 6%nat).
Proof.
  split.
  - exists (snd (initCooktop strays PERSONALITY_FOUR_COILS [])).
    split; [rewrite (appends_initCooktop strays _ w); reflexivity|].
    repeat split; vm_compute; reflexivity.
  - exists (snd (initCooktop strays PERSONALITY_FIVE_COILS [])).
    split; [rewrite (appends_initCooktop strays _ w); reflexivity|].
    repeat split; vm_compute; reflexivity.
Qed.

(** ** C1: the region the checksum covers *)

(** For board configuration, and for power levels when the heartbeat is not
    a control code, the checksum covers exactly the logical bytes. *)
Lemma checksum_region_without_escape stray address x y heartbeat :
  sent (initSingleGenerator stray address x y)
  = BoardConfig_logical address x y
    ++ trailer (checksum (BoardConfig_logical address x y))
  /\ (to_u8 x <= 19 \/ to_u8 y <= 19 ->
      isEscaped (to_u8 heartbeat) = false ->
      sent (setPowerLevels stray address x y heartbeat)
      = SetPowerLevels_logical address x y heartbeat
        ++ trailer (checksum (SetPowerLevels_logical address x y heartbeat))).
Proof.
  split.
  - rewrite sent_initSingleGenerator.
    now rewrite <- (CalculateCrc16_eq_checksum (BoardConfig_logical address x y)).
  - intros Hin Hesc. rewrite sent_setPowerLevels_run by assumption.
    cbv zeta. rewrite Hesc.
    now rewrite <- (CalculateCrc16_eq_checksum
                      (SetPowerLevels_logical address x y heartbeat)).
Qed.

(** C1 at [setPowerLevels(0x88, 0, 0, 0xE0)].  The heartbeat is a control
    code.  The checksum in the frame covers ten bytes of the buffer: the
    seven message bytes, the escape marker, the heartbeat and one byte that
    [memcpy] brought in from behind the message.  Whatever that byte is, the
    checksum differs from the checksum of the eight logical bytes, and two
    different stray bytes give two different frames. *)
Theorem escaped_heartbeat_checksum_region :
  let logical := SetPowerLevels_logical GEN1_ADDR 0 0 0xe0 in
  logical = [0xe2; 0x88; 0x0b; 0x87; 0x28; 0x00; 0x00; 0xe0]
  /\ (forall stray,
        let crc16 :=
          CalculateCrc16
            (Some [0xe2; 0x88; 0x0b; 0x87; 0x28; 0x00; 0x00; GEA_ESC; 0xe0;
                   to_u8 (stray 2%nat)]) 10 in
        sent (setPowerLevels stray GEN1_ADDR 0 0 0xe0)
        = [0xe2; 0x88; 0x0b; 0x87; 0x28; 0x00; 0x00; GEA_ESC; 0xe0]
          ++ trailer crc16
        /\ crc16 <> CalculateCrc16 (Some logical) 8)
  /\ sent (setPowerLevels (fun _ => 0) GEN1_ADDR 0 0 0xe0)
     = [0xe2; 0x88; 0x0b; 0x87; 0x28; 0x00; 0x00; 0xe0; 0xe0; 0x54; 0xad; 0xe3; 0xe1]
  /\ sent (setPowerLevels (fun _ => 7) GEN1_ADDR 0 0 0xe0)
     = [0xe2; 0x88; 0x0b; 0x87; 0x28; 0x00; 0x00; 0xe0; 0xe0; 0xb3; 0xdd; 0xe3; 0xe1]
  /\ CalculateCrc16 (Some logical) 8 = 0x9913.
Proof.
  cbv zeta. split; [reflexivity|]. split.
  - intros stray. split.
    + rewrite sent_setPowerLevels_run by (left; vm_compute; discriminate).
      reflexivity.
    + pose proof (to_u8_range (stray 2%nat)) as Hs.
      generalize dependent (to_u8 (stray 2%nat)). intros s Hs.
      pose proof (byte_cases
        (fun s => negb (CalculateCrc16
                          (Some [0xe2; 0x88; 0x0b; 0x87; 0x28; 0x00; 0x00;
                                 GEA_ESC; 0xe0; s]) 10
                        =? CalculateCrc16
                             (Some (SetPowerLevels_logical GEN1_ADDR 0 0 0xe0)) 8))
        ltac:(vm_compute; reflexivity) s Hs) as Hne.
      cbv beta in Hne. apply negb_true_iff, Z.eqb_neq in Hne. exact Hne.
  - repeat split; vm_compute; reflexivity.
Qed.

(** ** C2: control codes that are not escaped *)

(** C2 at [setPowerLevels(0x88, 0, 0xE0, 0)] and at
    [setPowerLevels(0x88, 0, 0, 122)].  The first call passes the range check
    because coil 1 is in range; the coil-2 byte [0xE0] goes out right after
    the coil-1 byte [0x00], with no escape marker before it.  The second call
    has both levels in range and a plain heartbeat; the low byte of its
    checksum is [0xE0] and goes out right after the heartbeat. *)
Theorem control_codes_sent_unescaped stray w :
  setPowerLevels stray GEN1_ADDR 0 0xe0 0 w
  = (0, w ++ map BusByte [0xe2; 0x88; 0x0b; 0x87; 0x28;
                          0x00; 0xe0; 0x00; 0x6c; 0xa1; 0xe3; 0xe1])
  /\ setPowerLevels stray GEN1_ADDR 0 0 122 w
     = (0, w ++ map BusByte [0xe2; 0x88; 0x0b; 0x87; 0x28;
                             0x00; 0x00; 0x7a; 0xe0; 0xbb; 0xe3; 0xe1])
  /\ isEscaped 0xe0 = true.
Proof.
  split; [|split; [|reflexivity]].
  - rewrite setPowerLevels_run by (left; vm_compute; discriminate).
    reflexivity.
  - rewrite setPowerLevels_run by (left; vm_compute; discriminate).
    reflexivity.
Qed.

(** ** C9: the round trip through the reference decoder *)

(** The reference decoder accepts the frames of the initialization sequence
    and gives back their fields. *)
Lemma reference_decode_initialization_frames stray :
  reference_decode (sent (initSingleGenerator stray GEN2_ADDR
                            COIL_TYPE_3700_WATT COIL_TYPE_1800_WATT))
  = Some (mkDecoded (Header.mk GEA_SOF GEN2_ADDR 0x0a LOCAL_ADDR)
            CMD_SET_BOARD_CONFIG [COIL_TYPE_3700_WATT; COIL_TYPE_1800_WATT])
  /\ reference_decode (sent (setPowerLevels stray GEN2_ADDR 0 0 0))
     = Some (mkDecoded (Header.mk GEA_SOF GEN2_ADDR 0x0b LOCAL_ADDR)
               CMD_SET_PWR_LEVELS [0; 0; 0]).
Proof. split; vm_compute; reflexivity. Qed.

(** C9 at [setPowerLevels(0x88, 0, 0, 0xE0)], at
    [setPowerLevels(0x88, 0, 0xE0, 0)] and at [setPowerLevels(0x88, 0, 0, 122)].
    The reference decoder rejects all three frames: the first because its
    checksum is not the checksum of the de-escaped bytes, whatever the stray
    byte, the other two because a control code went out without an escape
    marker. *)
Theorem round_trip_fails stray :
  reference_decode (sent (setPowerLevels stray GEN1_ADDR 0 0 0xe0)) = None
  /\ reference_decode (sent (setPowerLevels stray GEN1_ADDR 0 0xe0 0)) = None
  /\ reference_decode (sent (setPowerLevels stray GEN1_ADDR 0 0 122)) = None.
Proof.
  split; [|split].
  - rewrite sent_setPowerLevels_run by (left; vm_compute; discriminate).
    change (isEscaped (to_u8 224)) with true. cbv iota zeta.
    pose proof (to_u8_range (stray 2%nat)) as Hs.
    generalize dependent (to_u8 (stray 2%nat)). intros s Hs.
    pose proof (byte_cases
      (fun s =>
         match reference_decode
                 (take 7 (SetPowerLevels_logical GEN1_ADDR 0 0 224)
                  ++ [GEA_ESC; to_u8 224]
                  ++ trailer (CalculateCrc16
                       (Some (take 7 (SetPowerLevels_logical GEN1_ADDR 0 0 224)
                              ++ [GEA_ESC; to_u8 224; s])) 10))
         with Some _ => false | None => true end)
      ltac:(vm_compute; reflexivity) s Hs) as Hnone.
    cbv beta in Hnone.
    destruct (reference_decode _); [discriminate Hnone | reflexivity].
  - vm_compute. reflexivity.
  - vm_compute. reflexivity.
Qed.

(** ** The round trip where it holds *)

Lemma unescape_plain (l : list Z) :
  Forall (fun c => c <> GEA_ESC) l -> unescape l = Some l.
Proof.
  induction 1 as [|c l Hc _ IH]; [reflexivity|].
  cbn [unescape]. destruct (Z.eqb_spec c GEA_ESC) as [E|_]; [contradiction|].
  now rewrite IH.
Qed.

Lemma checksum_bytes_join crc16 :
  0 <= crc16 -> Z.land crc16 0xff + 256 * Z.shiftr crc16 8 = crc16.
Proof.
  intros H. change 0xff with (Z.ones 8).
  rewrite Z.land_ones, Z.shiftr_div_pow2 by lia. change (2 ^ 8) with 256.
  pose proof (Z.div_mod crc16 256 ltac:(lia)). lia.
Qed.

(** A frame whose bytes before the end-of-frame marker contain no [0xE0],
    and whose heartbeat is not a control code, survives the round trip. *)
Lemma round_trip_plain_frames stray address x y heartbeat :
  (let frame := sent (initSingleGenerator stray address x y) in
   Forall (fun c => c <> GEA_ESC) (take 9 frame) ->
   reference_decode frame
   = Some (mkDecoded (Header.mk GEA_SOF (to_u8 address) 0x0a LOCAL_ADDR)
             CMD_SET_BOARD_CONFIG [to_u8 x; to_u8 y]))
  /\ (let frame := sent (setPowerLevels stray address x y heartbeat) in
      to_u8 x <= 19 \/ to_u8 y <= 19 ->
      isEscaped (to_u8 heartbeat) = false ->
      Forall (fun c => c <> GEA_ESC) (take 10 frame) ->
      reference_decode frame
      = Some (mkDecoded (Header.mk GEA_SOF (to_u8 address) 0x0b LOCAL_ADDR)
                CMD_SET_PWR_LEVELS [to_u8 x; to_u8 y; to_u8 heartbeat])).
Proof.
  split; cbv zeta.
  - rewrite (proj1 (checksum_region_without_escape stray address x y heartbeat)).
    pose proof (checksum_range (BoardConfig_logical address x y)) as Hr.
    intros Hplain. unfold reference_decode.
    cbn [BoardConfig_logical BoardConfigMsg_bytes header_bytes bc_header bc_command
         coil1_profile coil2_profile Header.sof Header.destination Header.length
         Header.source trailer app rev take] in *.
    change (GEA_ACK =? GEA_ACK) with true. change (GEA_EOF =? GEA_EOF) with true.
    cbn [andb]. rewrite unescape_plain by exact Hplain.
    cbn [rev app]. rewrite checksum_bytes_join by lia. now rewrite Z.eqb_refl.
  - intros Hin Hesc.
    rewrite (proj2 (checksum_region_without_escape stray address x y heartbeat))
      by assumption.
    pose proof (checksum_range (SetPowerLevels_logical address x y heartbeat)) as Hr.
    intros Hplain. unfold reference_decode.
    cbn [SetPowerLevels_logical SetPowerLevelsMsg_bytes header_bytes pl_header
         pl_command coil1Power coil2Power Header.sof Header.destination
         Header.length Header.source trailer app rev take] in *.
    change (GEA_ACK =? GEA_ACK) with true. change (GEA_EOF =? GEA_EOF) with true.
    cbn [andb]. rewrite unescape_plain by exact Hplain.
    cbn [rev app]. rewrite checksum_bytes_join by lia. now rewrite Z.eqb_refl.
Qed.

(** * Further properties of the protocol layer *)

(** ** The checksum routine *)

Lemma crc16_loop_app (a b : list Z) : forall crc,
  crc16_loop (List.length a + List.length b) (a ++ b) crc
  = crc16_loop (List.length b) b (crc16_loop (List.length a) a crc).
Proof.
  induction a as [|c a IH]; intros crc; [reflexivity|].
  cbn [List.length Nat.add app crc16_loop]. apply IH.
Qed.

(** X1.  The checksum of a buffer made of two parts is obtained by running
    the loop over the second part from the checksum of the first: a checksum
    can be computed piece by piece. *)
Theorem CalculateCrc16_app (a b : list Z) :
  CalculateCrc16 (Some (a ++ b)) (List.length a + List.length b)
  = crc16_loop (List.length b) b (CalculateCrc16 (Some a) (List.length a))
  /\ CalculateCrc16 (Some (a ++ b)) (List.length a + List.length b)
     = fold_left crc16_iter b (CalculateCrc16 (Some a) (List.length a)).
Proof.
  assert (Hfold : forall l crc, crc16_loop (List.length l) l crc = fold_left crc16_iter l crc).
  { induction l as [|c l IH]; intros crc; [reflexivity|]. cbn. apply IH. }
  unfold CalculateCrc16. rewrite crc16_loop_app. split; [reflexivity|]. apply Hfold.
Qed.

Lemma crc16_iter_low_bits crc c c' :
  c mod 256 = c' mod 256 -> crc16_iter crc c = crc16_iter crc c'.
Proof.
  intros H. unfold crc16_iter. rewrite !crc16_index_low_bits.
  replace (Z.land (Z.lxor crc c) 255) with (Z.land (Z.lxor crc c') 255); [reflexivity|].
  apply Z.bits_inj'. intros n Hn.
  rewrite !Z.land_spec, !Z.lxor_spec. change 255 with (Z.ones 8).
  destruct (Z.ltb_spec n 8) as [Hlt|Hge].
  - rewrite <- (Z.mod_pow2_bits_low c 8 n), <- (Z.mod_pow2_bits_low c' 8 n) by lia.
    change (2 ^ 8) with 256. now rewrite H.
  - rewrite Z.ones_spec_high by lia. now rewrite !andb_false_r.
Qed.

(** X2.  Only the low eight bits of each element of the buffer reach the
    checksum.  In particular the checksum is the same whether the compiler's
    [char] is unsigned or signed (where a byte [c >= 128] is converted to
    [c + 0xFF00]). *)
Theorem CalculateCrc16_low_bits (f : Z -> Z) (buffer : list Z) (n : nat) :
  (forall c, f c mod 256 = c mod 256) ->
  CalculateCrc16 (Some (map f buffer)) n = CalculateCrc16 (Some buffer) n.
Proof.
  intros Hf. unfold CalculateCrc16. generalize 0xe300.
  revert buffer. induction n as [|n IH]; intros buffer crc; [reflexivity|].
  destruct buffer as [|c buffer]; [reflexivity|].
  cbn [map crc16_loop]. rewrite IH. f_equal. apply crc16_iter_low_bits, Hf.
Qed.

(** X2 for the conversion of a signed [char], on the bytes [E2 88 0B 87]. *)
Lemma CalculateCrc16_low_bits_witness :
  CalculateCrc16
    (Some (map (fun c => if 128 <=? c then c + 0xFF00 else c) [0xe2; 0x88; 0x0b; 0x87])) 4
  = CalculateCrc16 (Some [0xe2; 0x88; 0x0b; 0x87]) 4.
Proof.
  apply (CalculateCrc16_low_bits (fun c => if 128 <=? c then c + 0xFF00 else c)).
  intros c. destruct (128 <=? c); [|reflexivity].
  replace (c + 0xFF00) with (c + 255 * 256) by lia. apply Z.mod_add. lia.
Defined.

Lemma crc16Table_at_injective i j :
  0 <= i < 256 -> 0 <= j < 256 -> crc16Table_at i = crc16Table_at j -> i = j.
Proof.
  intros Hi Hj Heq.
  pose proof (byte_cases
    (fun i => forallb (fun j => implb (crc16Table_at i =? crc16Table_at j) (i =? j))
                      (map Z.of_nat (seq 0 256)))
    ltac:(vm_compute; reflexivity) i Hi) as Hall.
  cbv beta in Hall.
  pose proof (byte_cases _ Hall j Hj) as Hij. cbv beta in Hij.
  rewrite Heq, Z.eqb_refl in Hij. cbn in Hij. now apply Z.eqb_eq.
Qed.

Lemma lxor_cancel_l a b c : Z.lxor a b = Z.lxor a c -> b = c.
Proof.
  intros H. apply (f_equal (Z.lxor a)) in H.
  now rewrite <- !Z.lxor_assoc, !Z.lxor_nilpotent, !Z.lxor_0_l in H.
Qed.

Lemma low8_lxor_injective crc c c' :
  Z.land (Z.lxor crc c) 0xFF = Z.land (Z.lxor crc c') 0xFF -> c mod 256 = c' mod 256.
Proof.
  intros H. change 256 with (2 ^ 8).
  apply Z.bits_inj'. intros n Hn.
  destruct (Z.ltb_spec n 8) as [Hlt|Hge].
  - rewrite !Z.mod_pow2_bits_low by lia.
    apply (f_equal (fun x => Z.testbit x n)) in H.
    rewrite !Z.land_spec, !Z.lxor_spec in H. change 255 with (Z.ones 8) in H.
    rewrite Z.ones_spec_low in H by lia. rewrite !andb_true_r in H.
    destruct (Z.testbit crc n), (Z.testbit c n), (Z.testbit c' n);
      cbn in H; congruence.
  - now rewrite !Z.mod_pow2_bits_high by lia.
Qed.

Lemma crc16_iter_injective crc c c' :
  0 <= crc < 65536 -> crc16_iter crc c = crc16_iter crc c' -> c mod 256 = c' mod 256.
Proof.
  intros Hc H. rewrite !crc16_iter_checksum_step in H by exact Hc.
  unfold checksum_step in H. apply lxor_cancel_l in H.
  apply crc16Table_at_injective in H; try apply low8_range.
  now apply low8_lxor_injective in H.
Qed.

(** X3.  Two buffers that differ in their last byte only have different
    checksums: the 256 entries of the table are pairwise different. *)
Theorem CalculateCrc16_last_byte (buffer : list Z) (c c' : Z) :
  c mod 256 <> c' mod 256 ->
  CalculateCrc16 (Some (buffer ++ [c])) (List.length buffer + 1)
  <> CalculateCrc16 (Some (buffer ++ [c'])) (List.length buffer + 1).
Proof.
  intros Hne Heq. apply Hne.
  unfold CalculateCrc16 in Heq.
  rewrite (crc16_loop_app buffer [c]), (crc16_loop_app buffer [c']) in Heq.
  cbn [List.length crc16_loop] in Heq.
  refine (crc16_iter_injective _ c c' _ Heq).
  apply crc16_loop_range. lia.
Qed.

(** X3 for two frames' worth of header that end in heartbeat 1 and 2. *)
Lemma CalculateCrc16_last_byte_witness :
  CalculateCrc16 (Some ([0xe2; 0x88; 0x0b; 0x87; 0x28; 0; 0] ++ [1])) (7 + 1)
  <> CalculateCrc16 (Some ([0xe2; 0x88; 0x0b; 0x87; 0x28; 0; 0] ++ [2])) (7 + 1).
Proof.
  apply (CalculateCrc16_last_byte [0xe2; 0x88; 0x0b; 0x87; 0x28; 0; 0] 1 2).
  vm_compute. discriminate.
Defined.

(** ** The two commands *)

(** Replaces every checksum in the goal by a variable. *)
Ltac hide_crc :=
  repeat match goal with
         | |- context [CalculateCrc16 ?d ?n] =>
             let crc := fresh "crc16" in
             generalize (CalculateCrc16 d n); intros crc
         end.

(** X4.  The bytes that [memcpy] reads behind the message structure never
    reach the bus as such.  A board-configuration frame does not depend on
    them, nor does a power-level frame whose heartbeat is no control code.
    When the heartbeat is a control code the two frames built over different
    memory have the same length and the same bytes except the two checksum
    bytes, and are equal when the third stray byte is. *)
Theorem stray_memory_not_transmitted stray stray' address x y heartbeat :
  sent (initSingleGenerator stray address x y)
  = sent (initSingleGenerator stray' address x y)
  /\ (let f := sent (setPowerLevels stray address x y heartbeat) in
      let f' := sent (setPowerLevels stray' address x y heartbeat) in
      if isEscaped (to_u8 heartbeat)
      then List.length f = List.length f'
           /\ take 9 f = take 9 f' /\ drop 11 f = drop 11 f'
           /\ (to_u8 (stray 2%nat) = to_u8 (stray' 2%nat) -> f = f')
      else f = f').
Proof.
  split.
  { rewrite (sent_initSingleGenerator stray), (sent_initSingleGenerator stray').
    reflexivity. }
  cbv zeta. destruct (setPowerLevels_cases x y) as [[H1 H2]|Hin].
  - rewrite (sent_setPowerLevels_reject stray), (sent_setPowerLevels_reject stray')
      by assumption.
    destruct (isEscaped (to_u8 heartbeat)); repeat split; reflexivity.
  - rewrite (sent_setPowerLevels_run stray), (sent_setPowerLevels_run stray')
      by assumption.
    cbv zeta. destruct (isEscaped (to_u8 heartbeat)); [|reflexivity].
    split; [|split; [|split]].
    + unfold SetPowerLevels_logical, SetPowerLevelsMsg_bytes, header_bytes, trailer.
      cbn [take app List.length]. reflexivity.
    + unfold SetPowerLevels_logical, SetPowerLevelsMsg_bytes, header_bytes, trailer.
      cbn [take app]. reflexivity.
    + unfold SetPowerLevels_logical, SetPowerLevelsMsg_bytes, header_bytes, trailer.
      cbn [take drop app]. reflexivity.
    + intros ->. reflexivity.
Qed.

(** X5.  The result of [setPowerLevels] tells whether a frame went out: it
    is 0 exactly when at least one level (as the byte received) is at most
    19, and then 12 bytes are added to the bus, or 13 when the heartbeat is a
    control code; it is -1 exactly when both levels exceed 19, and then the
    bus is left as it was. *)
Theorem setPowerLevels_result stray address coil1 coil2 heartbeat w :
  let r := setPowerLevels stray address coil1 coil2 heartbeat w in
  (fst r = 0
   /\ (to_u8 coil1 <= 19 \/ to_u8 coil2 <= 19)
   /\ List.length (bus (snd r))
      = (List.length (bus w) + 12 + (if isEscaped (to_u8 heartbeat) then 1 else 0))%nat)
  \/ (fst r = -1
      /\ (19 < to_u8 coil1 /\ 19 < to_u8 coil2)
      /\ bus (snd r) = bus w).
Proof.
  cbv zeta. destruct (setPowerLevels_cases coil1 coil2) as [[H1 H2]|Hin].
  - right. rewrite setPowerLevels_reject by assumption. cbn [fst snd].
    split; [reflexivity|]. split; [split; assumption|].
    rewrite bus_app. cbn. apply app_nil_r.
  - left. rewrite setPowerLevels_run by assumption. cbn [fst snd].
    split; [reflexivity|]. split; [assumption|].
    rewrite bus_app, bus_BusByte, length_app. cbv zeta.
    destruct (isEscaped (to_u8 heartbeat)); hide_crc; cbn [List.length app take trailer
      SetPowerLevels_logical SetPowerLevelsMsg_bytes header_bytes]; lia.
Qed.

(** ** What needs an escape *)

Lemma isEscaped_range b : isEscaped b = true <-> 0xe0 <= b <= 0xe3.
Proof. rewrite isEscaped_spec. lia. Qed.

Lemma isEscaped_false b : ~ (0xe0 <= b <= 0xe3) -> isEscaped b = false.
Proof.
  intros H. destruct (isEscaped b) eqn:E; [|reflexivity].
  apply isEscaped_range in E. contradiction.
Qed.

(** X6.  With a board address of the sketch, both levels in [0,19] and a
    heartbeat that is no control code, none of the seven bytes between the
    start-of-frame marker and the checksum is a control code: in the frames
    of valid commands only the two checksum bytes can collide with one. *)
Theorem valid_power_frame_body_needs_no_escape stray address coil1 coil2 heartbeat :
  address = GEN1_ADDR \/ address = GEN2_ADDR \/ address = GEN3_ADDR ->
  withinRange coil1 minPowerSteps maxPowerSteps = true ->
  withinRange coil2 minPowerSteps maxPowerSteps = true ->
  0 <= heartbeat < 256 ->
  isEscaped heartbeat = false ->
  exists body lo hi,
    sent (setPowerLevels stray address coil1 coil2 heartbeat)
    = GEA_SOF :: body ++ [lo; hi; GEA_EOF; GEA_ACK]
    /\ body = [address; 0x0b; LOCAL_ADDR; CMD_SET_PWR_LEVELS; coil1; coil2; heartbeat]
    /\ Forall (fun c => isEscaped c = false) body.
Proof.
  intros Ha H1 H2 Hhb Hesc.
  unfold withinRange, minPowerSteps, maxPowerSteps in H1, H2.
  apply andb_true_iff in H1 as [H1a H1b]. apply andb_true_iff in H2 as [H2a H2b].
  apply Z.leb_le in H1a, H1b, H2a, H2b.
  assert (Haddr : 0 <= address < 256 /\ isEscaped address = false)
    by (destruct Ha as [->|[->| ->]]; split; (reflexivity || (vm_compute; split; congruence))).
  destruct Haddr as [Har Hae].
  rewrite sent_setPowerLevels_run by (left; rewrite to_u8_id by lia; lia).
  cbv zeta. unfold SetPowerLevels_logical.
  rewrite (to_u8_id address), (to_u8_id coil1), (to_u8_id coil2),
    (to_u8_id heartbeat) by lia.
  rewrite Hesc.
  cbn [SetPowerLevelsMsg_bytes header_bytes app pl_header pl_command coil1Power
       coil2Power Header.sof Header.destination Header.length Header.source].
  match goal with |- context [trailer ?crc] =>
    exists [address; 0x0b; LOCAL_ADDR; CMD_SET_PWR_LEVELS; coil1; coil2; heartbeat],
           (Z.land crc 0xff), (Z.shiftr crc 8)
  end.
  split; [reflexivity|]. split; [reflexivity|].
  repeat match goal with
         | |- Forall _ (_ :: _) => apply List.Forall_cons
         | |- Forall _ [] => apply List.Forall_nil
         end; try assumption; try reflexivity; apply isEscaped_false; lia.
Qed.

(** X6 at [setPowerLevels(0x89, 19, 0, 223)]. *)
Lemma valid_power_frame_body_needs_no_escape_witness :
  exists lo hi,
    sent (setPowerLevels (fun _ => 0) GEN2_ADDR 19 0 223)
    = [0xe2; 0x89; 0x0b; 0x87; 0x28; 19; 0; 223; lo; hi; 0xe3; 0xe1].
Proof.
  destruct (valid_power_frame_body_needs_no_escape (fun _ => 0) GEN2_ADDR 19 0 223)
    as (body & lo & hi & Hsent & Hbody & _);
    [right; left; reflexivity | reflexivity | reflexivity | lia | reflexivity |].
  exists lo, hi. rewrite Hsent, Hbody. reflexivity.
Defined.

(** ** Frames and the commands they come from *)

Ltac open_frames :=
  unfold SetPowerLevels_logical, SetPowerLevelsMsg_bytes, BoardConfig_logical,
    BoardConfigMsg_bytes, header_bytes, trailer;
  cbn [take app pl_header pl_command coil1Power coil2Power bc_header bc_command
       coil1_profile coil2_profile Header.sof Header.destination Header.length
       Header.source].

(** X7.  A power-level frame determines the command that built it: two
    calls of [setPowerLevels] that put the same non-empty frame on the bus
    received the same address, levels and heartbeat (as bytes). *)
Theorem power_frame_determines_command
    stray stray' address coil1 coil2 heartbeat address' coil1' coil2' heartbeat' :
  sent (setPowerLevels stray address coil1 coil2 heartbeat) <> [] ->
  sent (setPowerLevels stray address coil1 coil2 heartbeat)
  = sent (setPowerLevels stray' address' coil1' coil2' heartbeat') ->
  to_u8 address = to_u8 address' /\ to_u8 coil1 = to_u8 coil1'
  /\ to_u8 coil2 = to_u8 coil2' /\ to_u8 heartbeat = to_u8 heartbeat'.
Proof.
  intros Hne Heq.
  destruct (setPowerLevels_cases coil1 coil2) as [[H1 H2]|Hin];
    [now rewrite sent_setPowerLevels_reject in Hne by assumption|].
  destruct (setPowerLevels_cases coil1' coil2') as [[H1 H2]|Hin'].
  { rewrite (sent_setPowerLevels_reject stray') in Heq by assumption.
    now rewrite Heq in Hne. }
  rewrite (sent_setPowerLevels_run stray), (sent_setPowerLevels_run stray') in Heq
    by assumption.
  cbv zeta in Heq. clear Hne.
  destruct (isEscaped (to_u8 heartbeat)), (isEscaped (to_u8 heartbeat'));
    revert Heq; hide_crc; open_frames; intros Heq;
    try (apply (f_equal (@List.length Z)) in Heq; discriminate Heq);
    injection Heq; intros; repeat split; assumption.
Qed.

(** X7 at two calls whose arguments agree modulo 256. *)
Lemma power_frame_determines_command_witness :
  to_u8 0x88 = to_u8 0x188 /\ to_u8 1 = to_u8 257
  /\ to_u8 2 = to_u8 2 /\ to_u8 3 = to_u8 (-253).
Proof.
  apply (power_frame_determines_command (fun _ => 0) (fun _ => 9)).
  - vm_compute. discriminate.
  - vm_compute. reflexivity.
Defined.

(** X8.  A board-configuration frame determines the address and the two
    profiles (as bytes), and no board-configuration frame is a power-level
    frame. *)
Theorem config_frame_determines_command
    stray stray' address profile1 profile2 address' profile1' profile2' :
  sent (initSingleGenerator stray address profile1 profile2)
  = sent (initSingleGenerator stray' address' profile1' profile2') ->
  (to_u8 address = to_u8 address' /\ to_u8 profile1 = to_u8 profile1'
   /\ to_u8 profile2 = to_u8 profile2')
  /\ forall stray'' a c1 c2 hb,
       sent (initSingleGenerator stray address profile1 profile2)
       <> sent (setPowerLevels stray'' a c1 c2 hb).
Proof.
  intros Heq. split.
  - rewrite (sent_initSingleGenerator stray), (sent_initSingleGenerator stray') in Heq.
    revert Heq. hide_crc. open_frames. intros Heq.
    injection Heq; intros; repeat split; assumption.
  - intros stray'' a c1 c2 hb Habs.
    rewrite (sent_initSingleGenerator stray) in Habs.
    destruct (setPowerLevels_cases c1 c2) as [[H1 H2]|Hin].
    + rewrite sent_setPowerLevels_reject in Habs by assumption.
      revert Habs. open_frames. discriminate.
    + rewrite sent_setPowerLevels_run in Habs by assumption. cbv zeta in Habs.
      destruct (isEscaped (to_u8 hb)); revert Habs; hide_crc; open_frames;
        intros Habs; apply (f_equal (@List.length Z)) in Habs; discriminate Habs.
Qed.

(** X8 at two calls whose arguments agree modulo 256. *)
Lemma config_frame_determines_command_witness :
  to_u8 0x89 = to_u8 0x189 /\ to_u8 4 = to_u8 260 /\ to_u8 1 = to_u8 (-255).
Proof.
  apply (config_frame_determines_command (fun _ => 0) (fun _ => 9)
           0x89 4 1 0x189 260 (-255)).
  vm_compute. reflexivity.
Defined.

(** ** The initialization sequence *)

(** X9.  A personality other than 0 and 1 makes [initCooktop] do nothing at
    all: it returns 0 and the world is as before. *)
Theorem initCooktop_unknown_personality strays personality w :
  personality <> PERSONALITY_FOUR_COILS ->
  personality <> PERSONALITY_FIVE_COILS ->
  initCooktop strays personality w = (0, w).
Proof.
  intros H4 H5. unfold initCooktop. cbv zeta.
  destruct (Z.eqb_spec personality PERSONALITY_FOUR_COILS); [contradiction|].
  destruct (Z.eqb_spec personality PERSONALITY_FIVE_COILS); [contradiction|].
  reflexivity.
Qed.

(** X9 at personality 2. *)
Lemma initCooktop_unknown_personality_witness :
  initCooktop (fun _ _ => 0) 2 [ConsoleLine "boot"] = (0, [ConsoleLine "boot"]).
Proof.
  apply initCooktop_unknown_personality; discriminate.
Defined.

(** X10.  Whatever the personality, all that [initCooktop] adds to the world
    is a sequence of frames, each of 11 or 12 bytes and each followed by a
    pause of 100 ms: it prints nothing on the console, so none of its
    commands is rejected, and it returns 0. *)
Theorem initCooktop_paces_frames strays personality w :
  exists frames,
    initCooktop strays personality w
    = (0, w ++ flat_map (fun f => map BusByte f ++ [Pause 100]) frames)
    /\ Forall (fun f => List.length f = 11%nat \/ List.length f = 12%nat) frames
    /\ (List.length frames = 0 \/ List.length frames = 4 \/ List.length frames = 6)%nat.
Proof.
  rewrite (appends_initCooktop strays personality w).
  unfold initCooktop. cbv zeta.
  destruct (Z.eqb_spec personality PERSONALITY_FOUR_COILS) as [->|H4];
    [|destruct (Z.eqb_spec personality PERSONALITY_FIVE_COILS) as [->|H5]].
  - exists (bursts (snd (initCooktop strays PERSONALITY_FOUR_COILS []))).
    split; [vm_compute; reflexivity|]. split; [|right; left; vm_compute; reflexivity].
    vm_compute bursts.
    repeat (apply List.Forall_cons; [first [left; reflexivity | right; reflexivity]|]).
    apply List.Forall_nil.
  - exists (bursts (snd (initCooktop strays PERSONALITY_FIVE_COILS []))).
    split; [vm_compute; reflexivity|]. split; [|right; right; vm_compute; reflexivity].
    vm_compute bursts.
    repeat (apply List.Forall_cons; [first [left; reflexivity | right; reflexivity]|]).
    apply List.Forall_nil.
  - exists []. split; [reflexivity|]. split; [constructor|now left].
Qed.

(** * The sketch *)


Lemma sketch_bus_app l1 l2 : sketch_bus (l1 ++ l2) = sketch_bus l1 ++ sketch_bus l2.
Proof. unfold sketch_bus. now rewrite omap_app, bus_app. Qed.

Lemma sketch_bus_Protocol t : sketch_bus (map Protocol t) = bus t.
Proof.
  unfold sketch_bus. f_equal.
  induction t as [|e t IH]; [reflexivity|]. cbn. now rewrite IH.
Qed.

Lemma potValues_filled env cycle s :
  read_pots env cycle 5 0 (replicate 5 0) s
  = ([potValue env cycle 0; potValue env cycle 1; potValue env cycle 2;
      potValue env cycle 3; potValue env cycle 4],
     mkSketch (numberOfCoils s)
       (io s ++ flat_map (fun i => [ConsoleInt (potValue env cycle i); ConsoleText " "])
                  (seq 0 5))).
Proof.
  cbn [read_pots]. unfold mbind, Sk_bind, emit, mret, Sk_ret.
  cbn. now rewrite <- !app_assoc.
Qed.

Lemma loop_cycle_effect env heartbeat s :
  let s' := snd (loop_cycle env heartbeat s) in
  numberOfCoils s' = numberOfCoils s
  /\ sketch_bus (io s')
     = sketch_bus (io s) ++ concat (cycle_frames env (numberOfCoils s) heartbeat).
Proof.
  cbv zeta. unfold loop_cycle, cycle_frames. cbv zeta.
  unfold mbind, Sk_bind, emit. cbv beta iota. rewrite potValues_filled.
  unfold lift, get_numberOfCoils, mret, Sk_ret. cbv beta iota.
  cbn [fst snd numberOfCoils io lookup list_lookup default from_option id].
  destruct (numberOfCoils s =? 4); [|destruct (numberOfCoils s =? 5)];
    cbn [fst snd numberOfCoils io concat]; (split; [reflexivity|]);
    rewrite !sketch_bus_app, !sketch_bus_Protocol; unfold sent;
    change (sketch_bus [DigitalWrite _ _]) with (@nil Z);
    change (sketch_bus [ConsoleText _]) with (@nil Z);
    change (sketch_bus (flat_map _ (seq 0 5))) with (@nil Z);
    change (bus (snd (Serial_println "" []))) with (@nil Z);
    change (bus (snd (delay 500 []))) with (@nil Z);
    rewrite ?app_nil_r, <- ?app_assoc; reflexivity.
Qed.

Lemma loop_from_effect env n : forall heartbeat s,
  let s' := snd (loop_from env n heartbeat s) in
  numberOfCoils s' = numberOfCoils s
  /\ sketch_bus (io s')
     = sketch_bus (io s)
       ++ concat (flat_map (cycle_frames env (numberOfCoils s))
                    (map (fun k => heartbeat + Z.of_nat k) (seq 0 n))).
Proof.
  induction n as [|n IH]; intros heartbeat s; cbv zeta.
  - cbn. now rewrite app_nil_r.
  - cbn [loop_from]. unfold mbind, Sk_bind.
    destruct (loop_cycle_effect env heartbeat s) as [Hn Hb].
    destruct (loop_cycle env heartbeat s) as [u s1]. cbn [snd] in Hn, Hb.
    destruct (IH (heartbeat + 1) s1) as [Hn' Hb'].
    split; [now rewrite Hn', Hn|].
    rewrite Hb', Hb, Hn. cbn [seq map flat_map].
    rewrite concat_app, <- app_assoc, Z.add_0_r. do 4 f_equal.
    rewrite <- seq_shift, map_map. apply map_ext. intros k. lia.
Qed.

Lemma length_concat_flat_map {A : Type} (f : A -> list (list Z)) (g : A -> nat) l :
  (forall x, In x l -> List.length (concat (f x)) = g x) ->
  List.length (concat (flat_map f l)) = list_sum (map g l).
Proof.
  induction l as [|x l IH]; intros H; [reflexivity|].
  cbn [flat_map map list_sum]. rewrite concat_app, length_app, IH.
  - now rewrite H by (left; reflexivity).
  - intros y Hy. apply H. now right.
Qed.

(** ** One cycle of [loop] *)

(** X11.  One cycle of [loop] leaves [numberOfCoils] as it is and puts on
    the bus: with 4 coils the power levels of pots 1 and 2 for board 1, then
    of pots 3 and 4 for board 2; with 5 coils pots 1 and 2 for board 1, then
    pot 5 and a constant 0 for board 2, then pots 3 and 4 for board 3; with
    any other number of coils nothing.  All commands of a cycle carry the
    heartbeat of the cycle. *)
Theorem loop_cycle_wiring env heartbeat s :
  let s' := snd (loop_cycle env heartbeat s) in
  let cycle := Z.to_nat heartbeat in
  let pot := potValue env cycle in
  let board1 := sent (setPowerLevels (stray_at env cycle 0%nat) GEN1_ADDR
                        (pot 0%nat) (pot 1%nat) heartbeat) in
  numberOfCoils s' = numberOfCoils s
  /\ sketch_bus (io s')
     = sketch_bus (io s)
       ++ (if numberOfCoils s =? 4 then
             board1
             ++ sent (setPowerLevels (stray_at env cycle 1%nat) GEN2_ADDR
                        (pot 2%nat) (pot 3%nat) heartbeat)
           else if numberOfCoils s =? 5 then
             board1
             ++ sent (setPowerLevels (stray_at env cycle 1%nat) GEN2_ADDR
                        (pot 4%nat) 0 heartbeat)
             ++ sent (setPowerLevels (stray_at env cycle 2%nat) GEN3_ADDR
                        (pot 2%nat) (pot 3%nat) heartbeat)
           else []).
Proof.
  cbv zeta. destruct (loop_cycle_effect env heartbeat s) as [Hn Hb].
  split; [exact Hn|]. rewrite Hb. unfold cycle_frames. cbv zeta.
  destruct (numberOfCoils s =? 4); [|destruct (numberOfCoils s =? 5)];
    cbn [concat]; now rewrite ?app_nil_r.
Qed.

(** X12.  With 5 coils the command for board 2 is never rejected, whatever
    pot 5 reads: its second level is the constant 0, so the range check
    passes and the level of pot 5 goes out as the byte it wraps to. *)
Theorem five_coil_centre_level_unchecked env heartbeat s :
  numberOfCoils s = 5 ->
  let cycle := Z.to_nat heartbeat in
  exists before after lo hi,
    sketch_bus (io (snd (loop_cycle env heartbeat s)))
    = sketch_bus (io s) ++ before
      ++ ([GEA_SOF; GEN2_ADDR; 0x0b; LOCAL_ADDR; CMD_SET_PWR_LEVELS;
           to_u8 (potValue env cycle 4); 0]
          ++ (if isEscaped (to_u8 heartbeat)
              then [GEA_ESC; to_u8 heartbeat] else [to_u8 heartbeat])
          ++ [lo; hi; GEA_EOF; GEA_ACK])
      ++ after.
Proof.
  intros H5. cbv zeta. destruct (loop_cycle_effect env heartbeat s) as [_ Hb].
  rewrite Hb, H5. unfold cycle_frames. cbv zeta.
  change (5 =? 4) with false. change (5 =? 5) with true. cbv iota.
  cbn [concat]. rewrite app_nil_r.
  rewrite (sent_setPowerLevels_run (stray_at env (Z.to_nat heartbeat) 1%nat))
    by (right; vm_compute; discriminate).
  cbv zeta.
  match goal with |- context [sent ?c1 ++ _ ++ sent ?c3] =>
    exists (sent c1); exists (sent c3) end.
  destruct (isEscaped (to_u8 heartbeat));
    match goal with |- context [trailer ?crc] =>
      exists (Z.land crc 0xff), (Z.shiftr crc 8) end;
    reflexivity.
Qed.

(** X12 where Arduino's [map] gives 200 for every pot. *)
Lemma five_coil_centre_level_unchecked_witness :
  exists before after lo hi,
    sketch_bus (io (snd (loop_cycle
                           (mkEnvironment (fun _ _ => 0) (fun _ _ => 4000)
                              (fun _ _ _ _ _ => 200) (fun _ _ _ => 0))
                           7 (mkSketch 5 []))))
    = [] ++ before
      ++ ([0xe2; 0x89; 0x0b; 0x87; 0x28; 200; 0] ++ [7] ++ [lo; hi; 0xe3; 0xe1])
      ++ after.
Proof.
  apply (five_coil_centre_level_unchecked
           (mkEnvironment (fun _ _ => 0) (fun _ _ => 4000)
              (fun _ _ _ _ _ => 200) (fun _ _ _ => 0))
           7 (mkSketch 5 [])).
  reflexivity.
Defined.

(** ** One pass of [loop] *)

(** X13.  One pass of [loop] is 256 cycles with the heartbeats 0, 1, ...,
    255 in this order; it leaves [numberOfCoils] as it is, and what it puts
    on the bus is what the cycles put there, one after the other. *)
Theorem loop_sends_256_cycles env s :
  let s' := snd (loop env s) in
  numberOfCoils s' = numberOfCoils s
  /\ sketch_bus (io s')
     = sketch_bus (io s)
       ++ concat (flat_map (cycle_frames env (numberOfCoils s))
                    (map Z.of_nat (seq 0 256))).
Proof.
  cbv zeta. unfold loop.
  destruct (loop_from_effect env 256 0 s) as [Hn Hb].
  split; [exact Hn|]. rewrite Hb. do 3 f_equal.
Qed.

Lemma accepted_frame_length stray address coil1 coil2 heartbeat :
  to_u8 coil1 <= 19 \/ to_u8 coil2 <= 19 ->
  List.length (sent (setPowerLevels stray address coil1 coil2 heartbeat))
  = (12 + (if isEscaped (to_u8 heartbeat) then 1 else 0))%nat.
Proof.
  intros Hin. rewrite sent_setPowerLevels_run by assumption. cbv zeta.
  destruct (isEscaped (to_u8 heartbeat)); hide_crc; open_frames; reflexivity.
Qed.

(** X14.  When every level that [map] produces lies in [0,19], no command
    of a pass of [loop] is rejected: with 4 coils the pass puts 512 frames on
    the bus, 6152 bytes in all, and with 5 coils 768 frames, 9228 bytes.  All
    frames have 12 bytes but those of the heartbeats 0xE0 to 0xE3, which have
    13. *)
Theorem loop_traffic_in_range env s :
  (forall cycle i, (i < 5)%nat -> 0 <= potValue env cycle i <= 19) ->
  numberOfCoils s = 4 \/ numberOfCoils s = 5 ->
  let frames := flat_map (cycle_frames env (numberOfCoils s))
                  (map Z.of_nat (seq 0 256)) in
  sketch_bus (io (snd (loop env s))) = sketch_bus (io s) ++ concat frames
  /\ Forall (fun f => List.length f = 12%nat \/ List.length f = 13%nat) frames
  /\ Z.of_nat (List.length frames) = (if numberOfCoils s =? 4 then 512 else 768)
  /\ Z.of_nat (List.length (concat frames))
     = (if numberOfCoils s =? 4 then 6152 else 9228).
Proof.
  intros Hpot Hcoils. cbv zeta.
  assert (Hlen : forall stray address i j heartbeat cycle,
            (i < 5)%nat ->
            List.length (sent (setPowerLevels stray address (potValue env cycle i) j heartbeat))
            = (12 + (if isEscaped (to_u8 heartbeat) then 1 else 0))%nat).
  { intros stray address i j heartbeat cycle Hi. apply accepted_frame_length.
    left. rewrite to_u8_id; [apply Hpot, Hi|].
    pose proof (Hpot cycle i Hi). lia. }
  split; [|split; [|split]].
  - unfold loop. destruct (loop_from_effect env 256 0 s) as [_ Hb].
    rewrite Hb. do 3 f_equal.
  - apply Forall_flat_map, Forall_forall. intros heartbeat _.
    unfold cycle_frames. cbv zeta.
    destruct Hcoils as [-> | ->]; cbv iota beta;
      [change (4 =? 4) with true | change (5 =? 4) with false; change (5 =? 5) with true];
      cbv iota;
      repeat (apply List.Forall_cons;
              [rewrite Hlen by lia;
               destruct (isEscaped (to_u8 heartbeat)); [right|left]; reflexivity|]);
      apply List.Forall_nil.
  - rewrite (flat_map_constant_length
               (c := if numberOfCoils s =? 4 then 2%nat else 3%nat)).
    + rewrite length_map, length_seq. destruct Hcoils as [-> | ->]; reflexivity.
    + intros heartbeat _. unfold cycle_frames.
      destruct Hcoils as [-> | ->]; reflexivity.
  - rewrite (length_concat_flat_map _
               (fun heartbeat =>
                  Nat.mul (if numberOfCoils s =? 4 then 2%nat else 3%nat)
                    (Nat.add 12 (if isEscaped (to_u8 heartbeat) then 1%nat else 0%nat)))).
    + destruct Hcoils as [-> | ->]; vm_compute; reflexivity.
    + intros heartbeat _. unfold cycle_frames. cbv zeta.
      destruct Hcoils as [-> | ->];
        [change (4 =? 4) with true | change (5 =? 4) with false; change (5 =? 5) with true];
        cbv iota; cbn [concat]; rewrite !length_app, !Hlen by lia;
        cbn [List.length]; lia.
Qed.

(** X14 with all pots reading 2000, a linear [map] with truncating
    division, and 4 coils. *)
Lemma loop_traffic_in_range_witness :
  let env := mkEnvironment (fun _ _ => 0) (fun _ _ => 2000)
               (fun x in_min in_max out_min out_max =>
                  Z.quot ((x - in_min) * (out_max - out_min)) (in_max - in_min) + out_min)
               (fun _ _ _ => 0) in
  Z.of_nat (List.length (sketch_bus (io (snd (loop env (mkSketch 4 [])))))) = 6152.
Proof.
  cbv zeta.
  destruct (loop_traffic_in_range
              (mkEnvironment (fun _ _ => 0) (fun _ _ => 2000)
                 (fun x in_min in_max out_min out_max =>
                    Z.quot ((x - in_min) * (out_max - out_min)) (in_max - in_min) + out_min)
                 (fun _ _ _ => 0))
              (mkSketch 4 []))
    as (Hbus & _ & _ & Hbytes).
  - intros cycle i _. vm_compute. split; discriminate.
  - left. reflexivity.
  - rewrite Hbus. exact Hbytes.
Defined.

(** ** [setup] *)

(** X15.  [setup] takes the topology from the personality pin: a reading of
    1 gives 5 coils and the 5-coil initialization, any other reading 4 coils
    and the 4-coil initialization.  So the boards are initialized for the
    number of coils that [loop] will drive, [initCooktop] never gets an
    unknown personality, and [setup] puts 69 bytes (six frames) or 46 bytes
    (four frames) on the bus. *)
Theorem setup_selects_topology personalitySel strays s :
  let s' := snd (setup personalitySel strays s) in
  let personality :=
    if personalitySel =? 1 then PERSONALITY_FIVE_COILS else PERSONALITY_FOUR_COILS in
  numberOfCoils s' = (if personalitySel =? 1 then 5 else 4)
  /\ sketch_bus (io s')
     = sketch_bus (io s) ++ bus (snd (initCooktop strays personality []))
  /\ List.length (bursts (snd (initCooktop strays personality [])))
     = (if personalitySel =? 1 then 6%nat else 4%nat)
  /\ List.length (bus (snd (initCooktop strays personality [])))
     = (if personalitySel =? 1 then 69%nat else 46%nat).
Proof.
  cbv zeta. destruct (personalitySel =? 1) eqn:E; unfold setup; rewrite E;
    unfold mbind, Sk_bind, emit, lift, set_numberOfCoils, mret, Sk_ret;
    cbn [pinMode_pots];
    unfold mbind, Sk_bind, emit, lift, set_numberOfCoils, mret, Sk_ret;
    cbn [fst snd numberOfCoils io];
    (split; [reflexivity|]);
    (split; [|split; vm_compute; reflexivity]);
    change (1 =? 1) with true; change (0 =? 1) with false; cbv iota;
    cbn [fst snd numberOfCoils io];
    rewrite !sketch_bus_app, !sketch_bus_Protocol;
    change (bus (snd (Serial_println _ []))) with (@nil Z);
    repeat match goal with
           | |- context [sketch_bus [?e]] => change (sketch_bus [e]) with (@nil Z)
           end;
    rewrite ?app_nil_r, <- ?app_assoc;
    unfold PERSONALITY_FIVE_COILS, PERSONALITY_FOUR_COILS; reflexivity.
Qed.

(** ** Frames whose checksum a receiver can verify *)


